(** * PaperCrawler: the result parser, the ledger and the download loop

    A shallow embedding of [main.py].  Python [str] values are modelled as
    Rocq strings whose characters are the code points below 256; the page
    that Selenium and BeautifulSoup hand to the parsing loop is modelled as
    the list of entries with the fields the loop reads; the CSV ledger is
    modelled twice: in a run, as the rows of text of the file, to which a
    batch is added; and in [Pandas], as what [read_csv] makes of those texts
    and [to_csv] writes back, missing-value markers and whole-number columns
    included; the local file system is a finite map from paths to
    contents.  An exception that the script does not catch ends the
    function that raised it and every caller. *)

From Stdlib Require Import ZArith String Ascii List Bool Lia.
From stdpp Require Import base option list strings gmap.

Local Open Scope Z_scope.

(** ** Exceptions and results *)

Inductive exn : Type :=
| AttributeError   (* [None.text]: a looked-up tag is missing *)
| ValueError       (* [datetime.strptime] rejects its input *)
| RequestException (* [requests.get] could not obtain a response *).

Inductive res (A : Type) : Type :=
| Ok (a : A)
| Raise (e : exn).
Arguments Ok {A} a.
Arguments Raise {A} e.

(** ** The [str] methods the script calls *)

Module PyStr.

Definition code (c : ascii) : N := N_of_ascii c.

(** [str.isspace] on the code points below 256. *)
Definition is_space (c : ascii) : bool :=
  let n := code c in
  ((9 <=? n) && (n <=? 13) || (28 <=? n) && (n <=? 32)
   || (n =? 133) || (n =? 160))%N.

Definition is_digit (c : ascii) : bool :=
  let n := code c in ((48 <=? n) && (n <=? 57))%N.

Definition is_ascii_upper (c : ascii) : bool :=
  let n := code c in ((65 <=? n) && (n <=? 90))%N.

Definition is_ascii_letter (c : ascii) : bool :=
  let n := code c in
  ((65 <=? n) && (n <=? 90) || (97 <=? n) && (n <=? 122))%N.

(** The class [\w] of a [str] pattern: [str.isalnum] or an underscore. *)
Definition is_word (c : ascii) : bool :=
  let n := code c in
  (is_digit c || is_ascii_letter c || (n =? 95)
   || (n =? 170) || (n =? 178) || (n =? 179) || (n =? 181)
   || (n =? 185) || (n =? 186) || (188 <=? n) && (n <=? 190)
   || (192 <=? n) && (n <=? 214) || (216 <=? n) && (n <=? 246)
   || (248 <=? n))%N.

Definition lower_char (c : ascii) : ascii :=
  if is_ascii_upper c then ascii_of_N (code c + 32) else c.

Fixpoint lower (s : string) : string :=
  match s with
  | EmptyString => EmptyString
  | String c s' => String (lower_char c) (lower s')
  end.

Fixpoint all_chars (f : ascii -> bool) (s : string) : bool :=
  match s with
  | EmptyString => true
  | String c s' => f c && all_chars f s'
  end.

Fixpoint lstrip (s : string) : string :=
  match s with
  | EmptyString => EmptyString
  | String c s' => if is_space c then lstrip s' else s
  end.

Fixpoint rstrip (s : string) : string :=
  match s with
  | EmptyString => EmptyString
  | String c s' =>
      match rstrip s' with
      | EmptyString => if is_space c then EmptyString else String c EmptyString
      | r => String c r
      end
  end.

(** [s.strip()] *)
Definition strip (s : string) : string := rstrip (lstrip s).

(** [s.startswith(p)], also returning what follows the prefix. *)
Fixpoint strip_prefix (p s : string) : option string :=
  match p, s with
  | EmptyString, _ => Some s
  | String a p', String b s' =>
      if Ascii.eqb a b then strip_prefix p' s' else None
  | String _ _, EmptyString => None
  end.

Definition startswith (p s : string) : bool :=
  match strip_prefix p s with Some _ => true | None => false end.

(** [s.endswith(p)] *)
Fixpoint endswith (p s : string) : bool :=
  String.eqb p s
  || match s with
     | EmptyString => false
     | String _ s' => endswith p s'
     end.

(** [sub in s] for a non-empty [sub]. *)
Fixpoint contains (sub s : string) : bool :=
  match s with
  | EmptyString => startswith sub EmptyString
  | String _ s' => startswith sub s || contains sub s'
  end.

(** [s.replace(old, new)] for a non-empty [old]: the occurrences are
    found from the left and do not overlap.  [skip] counts the
    characters of an occurrence that are still to be passed over. *)
Fixpoint replace_from (old new : string) (skip : nat) (s : string) : string :=
  match s with
  | EmptyString => EmptyString
  | String c s' =>
      match skip with
      | S k => replace_from old new k s'
      | O =>
          if startswith old s
          then new +:+ replace_from old new (Nat.pred (String.length old)) s'
          else String c (replace_from old new O s')
      end
  end.

Definition replace (old new s : string) : string := replace_from old new O s.

(** [s.split(sep)[0]] for a one-character [sep]. *)
Fixpoint split_first (sep : ascii) (s : string) : string :=
  match s with
  | EmptyString => EmptyString
  | String c s' => if Ascii.eqb c sep then EmptyString else String c (split_first sep s')
  end.

End PyStr.

(** ** [re.search(r'originally announced (\w+ \d{4})', s)] *)

Module Re.
Import PyStr.

(** [ \d{4}]: one space and four digits; what follows is not looked at. *)
Definition match_year (s : string) : option string :=
  match s with
  | String sp (String d1 (String d2 (String d3 (String d4 _)))) =>
      if Ascii.eqb sp " "%char && is_digit d1 && is_digit d2 && is_digit d3 && is_digit d4
      then Some (String sp (String d1 (String d2 (String d3 (String d4 EmptyString)))))
      else None
  | _ => None
  end.

(** The rest of [\w+] once its first character is taken: greedy, and on
    failure of what follows the run is given back one character at a
    time. *)
Fixpoint match_word_run (s : string) : option string :=
  match s with
  | String c s' =>
      if is_word c then
        match match_word_run s' with
        | Some g => Some (String c g)
        | None => match_year s
        end
      else match_year s
  | EmptyString => match_year s
  end.

(** Group 1, [\w+ \d{4}], matched at the start of [s]. *)
Definition match_group (s : string) : option string :=
  match s with
  | String c s' =>
      if is_word c then String c <$> match_word_run s' else None
  | EmptyString => None
  end.

Definition match_here (s : string) : option string :=
  strip_prefix "originally announced " s ≫= match_group.

(** The leftmost match; the result is [match.group(1)]. *)
Fixpoint search (s : string) : option string :=
  match match_here s with
  | Some g => Some g
  | None =>
      match s with
      | EmptyString => None
      | String _ s' => search s'
      end
  end.

End Re.

(** ** [datetime.strptime(s, "%B %Y")] and [strftime("%Y%m")] *)

Module DateTime.
Import PyStr.

(** The full month names of the C locale, as [_strptime] keeps them. *)
Definition month_names : list string :=
  ["january"; "february"; "march"; "april"; "may"; "june"; "july";
   "august"; "september"; "october"; "november"; "december"].

(** A directive is matched without regard to case. *)
Fixpoint strip_prefix_ci (p s : string) : option string :=
  match p, s with
  | EmptyString, _ => Some s
  | String a p', String b s' =>
      if Ascii.eqb (lower_char a) (lower_char b) then strip_prefix_ci p' s' else None
  | String _ _, EmptyString => None
  end.

(** [%B]: the month whose name starts [s], numbered from [m], and what
    follows the name.  No name starts another, so the order in which the
    names are tried does not matter. *)
Fixpoint match_month (names : list string) (m : Z) (s : string) : option (Z * string) :=
  match names with
  | [] => None
  | n :: names' =>
      match strip_prefix_ci n s with
      | Some rest => Some (m, rest)
      | None => match_month names' (m + 1) s
      end
  end.

Definition digit_val (c : ascii) : Z := Z.of_N (code c) - 48.

(** [int(y)] for a four-digit [y]. *)
Definition year_val (y : string) : Z :=
  match y with
  | String d1 (String d2 (String d3 (String d4 EmptyString))) =>
      1000 * digit_val d1 + 100 * digit_val d2 + 10 * digit_val d3 + digit_val d4
  | _ => 0
  end.

Record datetime : Type := { year : Z; month : Z }.

(** The smallest year a [datetime] holds. *)
Definition MINYEAR : Z := 1.

(** The format's space stands for [\s+]; [%Y] is four digits; the whole
    of [s] must be used up; the year must be one a [datetime] holds. *)
Definition strptime_BY (s : string) : res datetime :=
  match match_month month_names 1 s with
  | None => Raise ValueError
  | Some (m, String sp rest) =>
      if is_space sp then
        match lstrip rest with
        | String d1 (String d2 (String d3 (String d4 EmptyString))) =>
            if is_digit d1 && is_digit d2 && is_digit d3 && is_digit d4 then
              let y := year_val (String d1 (String d2 (String d3 (String d4 EmptyString)))) in
              if y <? MINYEAR then Raise ValueError
              else Ok {| year := y; month := m |}
            else Raise ValueError
        | _ => Raise ValueError
        end
      else Raise ValueError
  | Some (_, EmptyString) => Raise ValueError
  end.

Definition digit_char (n : Z) : ascii := ascii_of_N (Z.to_N (48 + n)).

Definition dec4 (y : Z) : string :=
  String (digit_char (y / 1000)) (String (digit_char (y / 100 mod 10))
    (String (digit_char (y / 10 mod 10)) (String (digit_char (y mod 10)) EmptyString))).

Definition dec2 (m : Z) : string :=
  String (digit_char (m / 10)) (String (digit_char (m mod 10)) EmptyString).

Fixpoint drop_zeros (s : string) : string :=
  match s with
  | String c (String _ _ as s') => if Ascii.eqb c "0"%char then drop_zeros s' else s
  | _ => s
  end.

(** [strftime("%Y%m")].  The C library decides whether [%Y] pads a year
    below 1000 with zeros; [pads_year] records what the platform does. *)
Definition strftime_Ym (pads_year : bool) (d : datetime) : string :=
  (if pads_year then dec4 (year d) else drop_zeros (dec4 (year d)))
  +:+ dec2 (month d).

End DateTime.

(** ** The data of the script *)

(** One [<li class="arxiv-result">] of the results page, reduced to what
    the loop asks of it: the text of the first [p] of class [title],
    [is-size-7] and [authors] ([None] when [find] finds no such tag), and
    the [href] of every [a] below it in document order ([None] for an
    [a] without that attribute). *)
Record entry : Type := {
  p_title : option string;
  p_is_size_7 : option string;
  p_authors : option string;
  a_hrefs : list (option string)
}.

(** The dict [fetch_arxiv_papers] appends to [papers]. *)
Record paper : Type := {
  Download_Date : string;
  YearMonth : string;
  Title : string;
  First_Author : string;
  PDF_Link : string;
  Journal : string
}.

(** One line of [paper_list.csv]. *)
Record row : Type := {
  row_Download_Date : string;
  row_YearMonth : string;
  row_Title : string;
  row_Journal : string;
  row_First_Author : string
}.

Record response : Type := {
  status_code : Z;
  content : list Byte.byte
}.

(** What the script reads from outside: the date of the run, the entries
    of the page the browser renders for a search URL, the answer of
    [requests.get] for a URL, and how the platform prints years. *)
Record env : Type := {
  today : string;
  page_entries : string -> list entry;
  requests_get : string -> res response;
  pads_year : bool
}.

(** What the script changes: the rows of the CSV file, the files on disk
    and the lines printed. *)
Record world : Type := {
  csv : list row;
  files : gmap string (list Byte.byte);
  stdout : list string
}.

Definition print (line : string) (w : world) : world :=
  {| csv := csv w; files := files w; stdout := stdout w ++ [line] |}.

Definition write_file (path : string) (data : list Byte.byte) (w : world) : world :=
  {| csv := csv w; files := <[path := data]> (files w); stdout := stdout w |}.

(** [os.path.join(a, b)] on POSIX. *)
Definition path_join (a b : string) : string :=
  if PyStr.startswith "/" b then b
  else if String.eqb a "" || PyStr.endswith "/" a then a +:+ b
  else a +:+ "/" +:+ b.

Definition BASE_DIR : string := "Papers".

(** ** The ledger *)

(** The ledger within a run, as the rows of text of the file.  What
    [read_csv] makes of a text (a missing value, a number) is left to
    [Pandas.read_downloaded_papers] below; the two agree on a file that
    pandas writes back as it reads it. *)
Definition read_downloaded_papers (w : world) : list row := csv w.

(** [pd.concat([df, new_df], ignore_index=True)] written back whole, for a
    file that pandas writes back as it reads it; for any file, see
    [Pandas.save_all_paper_info]. *)
Definition save_all_paper_info (all_paper_info : list row) (w : world) : world :=
  let df := read_downloaded_papers w in
  let df := df ++ all_paper_info in
  {| csv := df; files := files w; stdout := stdout w |}.

(** ** The result parser *)

Fixpoint join (sep : string) (l : list string) : string :=
  match l with
  | [] => ""
  | [x] => x
  | x :: l' => x +:+ sep +:+ join sep l'
  end.

Definition quote : string := String (ascii_of_N 34) EmptyString.

Definition search_url (queries : list string) : string :=
  let quoted_queries := map (fun q => quote +:+ q +:+ quote) queries in
  let query_string := join "+AND+" quoted_queries in
  "https://arxiv.org/search/?query=" +:+ query_string
  +:+ "&searchtype=all&abstracts=show&order=-announced_date_first&size=200".

(** [lambda x: x and 'pdf' in x] *)
Definition href_has_pdf (x : option string) : bool :=
  match x with
  | None => false
  | Some h => negb (String.eqb h "") && PyStr.contains "pdf" h
  end.

(** [entry.find('a', attrs={'href': ...})] followed by [['href']]. *)
Fixpoint find_pdf_link (hrefs : list (option string)) : option string :=
  match hrefs with
  | [] => None
  | x :: hrefs' => if href_has_pdf x then x else find_pdf_link hrefs'
  end.

(** [datetime.strptime(date_str, "%B %Y").strftime("%Y%m")] *)
Definition year_month_of (pads_year : bool) (date_str : string) : res string :=
  match DateTime.strptime_BY date_str with
  | Raise x => Raise x
  | Ok d => Ok (DateTime.strftime_Ym pads_year d)
  end.

(** The body of the loop after the [break] test, for one entry:
    [Ok None] is an entry passed over, [Ok (Some p)] an appended dict. *)
Definition loop_body (E : env) (downloaded_titles : list string) (e : entry)
  : res (option paper) :=
  match p_title e with
  | None => Raise AttributeError
  | Some title_text =>
      let title := PyStr.strip title_text in
      if bool_decide (title ∈ downloaded_titles) then Ok None
      else
        match p_is_size_7 e with
        | None => Raise AttributeError
        | Some info_text =>
            let published_info := PyStr.strip info_text in
            match Re.search published_info with
            | None => Ok None
            | Some date_str =>
                match year_month_of (pads_year E) date_str with
                | Raise x => Raise x
                | Ok year_month =>
                    match p_authors e with
                    | None => Raise AttributeError
                    | Some authors_text =>
                        let authors :=
                          PyStr.strip (PyStr.split_first ","%char
                            (PyStr.replace "Authors:" "" authors_text)) in
                        match find_pdf_link (a_hrefs e) with
                        | None => Ok None
                        | Some pdf_link =>
                            Ok (Some {| Download_Date := today E;
                                        YearMonth := year_month;
                                        Title := title;
                                        First_Author := authors;
                                        PDF_Link := pdf_link;
                                        Journal := "arXiv" |})
                        end
                    end
                end
            end
        end
  end.

(** [for entry in entries: ...] with the list [papers] built so far. *)
Fixpoint fetch_loop (E : env) (num_papers : Z) (downloaded_titles : list string)
    (entries : list entry) (papers : list paper) : res (list paper) :=
  match entries with
  | [] => Ok papers
  | e :: entries' =>
      if Z.of_nat (length papers) >=? num_papers then Ok papers
      else
        match loop_body E downloaded_titles e with
        | Raise x => Raise x
        | Ok None => fetch_loop E num_papers downloaded_titles entries' papers
        | Ok (Some p) =>
            fetch_loop E num_papers downloaded_titles entries' (papers ++ [p])
        end
  end.

Definition fetch_arxiv_papers (E : env) (queries : list string)
    (start_year_month end_year_month : string) (num_papers : Z)
    (downloaded_titles : list string) : res (list paper) :=
  let entries := page_entries E (search_url queries) in
  fetch_loop E num_papers downloaded_titles entries [].

(** ** The downloads *)

Definition sanitized_title (p : paper) : string :=
  PyStr.replace "/" "-" (PyStr.replace ":" "" (Title p)).

Definition pdf_name (p : paper) : string :=
  YearMonth p +:+ "_" +:+ sanitized_title p +:+ ".pdf".

Definition pdf_path (download_dir : string) (p : paper) : string :=
  path_join download_dir (pdf_name p).

(** A raised exception leaves the files already written in place. *)
Fixpoint download_papers (E : env) (papers : list paper) (download_dir : string)
    (w : world) : world * res unit :=
  match papers with
  | [] => (w, Ok tt)
  | p :: papers' =>
      let title := sanitized_title p in
      match files w !! pdf_path download_dir p with
      | None =>
          match requests_get E (PDF_Link p) with
          | Raise x => (w, Raise x)
          | Ok response =>
              let w := write_file (pdf_path download_dir p) (content response) w in
              let w := print ("Downloaded: " +:+ YearMonth p +:+ " " +:+ title) w in
              download_papers E papers' download_dir w
          end
      | Some _ =>
          download_papers E papers' download_dir (print ("Already downloaded: " +:+ title) w)
      end
  end.

(** ** One run *)

Fixpoint repeat_string (s : string) (n : nat) : string :=
  match n with
  | O => ""
  | S n' => s +:+ repeat_string s n'
  end.

Definition paper_info (today : string) (p : paper) : row :=
  {| row_Download_Date := today;
     row_YearMonth := YearMonth p;
     row_Title := Title p;
     row_Journal := Journal p;
     row_First_Author := First_Author p |}.

Definition main (E : env) (queries : list string)
    (start_year_month end_year_month : string) (num_papers : Z) (w : world)
  : world * res unit :=
  let download_dir := path_join BASE_DIR (today E) in
  let w := print (repeat_string "-" 50) w in
  let w := print ("[" +:+ today E +:+ "] Crawling papers from arXiv from "
                  +:+ start_year_month +:+ " to " +:+ end_year_month) w in
  let w := print (repeat_string "-" 50) w in
  let downloaded_papers := read_downloaded_papers w in
  let downloaded_titles := map row_Title downloaded_papers in
  match fetch_arxiv_papers E queries start_year_month end_year_month
          num_papers downloaded_titles with
  | Raise x => (w, Raise x)
  | Ok papers =>
      match download_papers E papers download_dir w with
      | (w, Raise x) => (w, Raise x)
      | (w, Ok _) =>
          let all_paper_info := map (paper_info (today E)) papers in
          let w := save_all_paper_info all_paper_info w in
          (print (repeat_string "-" 25 +:+ " Done " +:+ repeat_string "-" 25) w, Ok tt)
      end
  end.

(** ** Reference definitions for the statements *)

(** Character by character: every [c] becomes [new], the rest stays. *)
Fixpoint subst_char (c : ascii) (new : string) (s : string) : string :=
  match s with
  | EmptyString => EmptyString
  | String x s' =>
      if Ascii.eqb c x then new +:+ subst_char c new s'
      else String x (subst_char c new s')
  end.

(** The sanitized title in the words of the specification: the title with
    every [:] and every [/] removed. *)
Definition title_without_colon_slash (t : string) : string :=
  subst_char "/" "" (subst_char ":" "" t).

(** Four digits, as [\d{4}] takes them. *)
Definition year_text (y : string) : Prop :=
  String.length y = 4%nat /\ PyStr.all_chars PyStr.is_digit y = true.

(** A text the pattern [originally announced (\w+ \d{4})] matches
    somewhere, with [w] and [y] the month word and the year of one match. *)
Definition announced_at (s w y : string) : Prop :=
  exists pre post : string,
    s = pre +:+ "originally announced " +:+ w +:+ " " +:+ y +:+ post
    /\ w <> "" /\ PyStr.all_chars PyStr.is_word w = true
    /\ year_text y.

Definition has_announcement (s : string) : Prop :=
  exists w y : string, announced_at s w y.

(** ** A small results page, used to run the definitions *)

Module Sample.

Definition announced : string :=
  "Submitted 1 June, 2024; originally announced June 2024.".

Definition listed (title info link : string) : entry :=
  {| p_title := Some title;
     p_is_size_7 := Some info;
     p_authors := Some "Authors: A. Bee, C. Dee";
     a_hrefs := [None; Some "https://arxiv.org/abs/2406.00001"; Some link] |}.

Definition paper_x : entry :=
  listed "Paper X" announced "https://arxiv.org/pdf/2406.00001".

Definition paper_y : entry :=
  listed " Paper Y " announced "https://arxiv.org/pdf/2406.00002".

(** A second entry of the page with the title of [paper_y]. *)
Definition paper_y_again : entry :=
  listed "Paper Y" announced "https://arxiv.org/pdf/2406.00003".

(** An entry with the title of [paper_x] and nothing else that parses. *)
Definition bare_paper_x : entry :=
  {| p_title := Some "Paper X
";
     p_is_size_7 := None;
     p_authors := None;
     a_hrefs := [] |}.

Definition undated : entry :=
  listed "Paper Z" "Submitted 1 June, 2024." "https://arxiv.org/pdf/2406.00004".

Definition year_zero : entry :=
  listed "Paper 0" "originally announced June 0000." "https://arxiv.org/pdf/0000.00001".

Definition not_found : response :=
  {| status_code := 404; content := [Byte.x34; Byte.x30; Byte.x34] |}.

Definition E (entries : list entry) : env :=
  {| today := "20240701";
     page_entries := fun _ => entries;
     requests_get := fun _ => Ok not_found;
     pads_year := false |}.

Definition record (title link : string) : paper :=
  {| Download_Date := "20240701";
     YearMonth := "202406";
     Title := title;
     First_Author := "A. Bee";
     PDF_Link := link;
     Journal := "arXiv" |}.

Definition record_x : paper := record "Paper X" "https://arxiv.org/pdf/2406.00001".
Definition record_y : paper := record "Paper Y" "https://arxiv.org/pdf/2406.00002".
Definition record_y_again : paper := record "Paper Y" "https://arxiv.org/pdf/2406.00003".

Definition line (title : string) : row :=
  {| row_Download_Date := "20240701";
     row_YearMonth := "202406";
     row_Title := title;
     row_Journal := "arXiv";
     row_First_Author := "A. Bee" |}.

Definition empty_world : world := {| csv := []; files := ∅; stdout := [] |}.

(** A ledger that knows Paper X, and a disk that already holds the file
    Paper Y would be saved to. *)
Definition world_x : world :=
  {| csv := [line "Paper X"];
     files := {[ "Papers/20240701/202406_Paper Y.pdf" := [Byte.x25] ]};
     stdout := [] |}.

End Sample.

(** ** The prompts of the script *)

Module Config.

Definition DEFAULT_QUERIES : list string :=
  ["fairness"; "machine learning"; "synthetic data generation"].
Definition DEFAULT_START_YEAR_MONTH : string := "202301".
Definition DEFAULT_END_YEAR_MONTH : string := "202312".
Definition DEFAULT_NUM_PAPERS : Z := 5.

End Config.

(** [s.split(sep)] for a one-character [sep]: every piece, in order. *)
Fixpoint str_split (sep : ascii) (s : string) : list string :=
  match s with
  | EmptyString => [EmptyString]
  | String c s' =>
      if Ascii.eqb c sep then EmptyString :: str_split sep s'
      else
        match str_split sep s' with
        | [] => [String c EmptyString]
        | x :: l => String c x :: l
        end
  end.

Fixpoint lstrip_by (f : ascii -> bool) (s : string) : string :=
  match s with
  | EmptyString => EmptyString
  | String c s' => if f c then lstrip_by f s' else s
  end.

Fixpoint rstrip_by (f : ascii -> bool) (s : string) : string :=
  match s with
  | EmptyString => EmptyString
  | String c s' =>
      match rstrip_by f s' with
      | EmptyString => if f c then EmptyString else String c EmptyString
      | r => String c r
      end
  end.

(** [s.strip(chars)], [f] telling the characters of [chars]. *)
Definition strip_by (f : ascii -> bool) (s : string) : string :=
  rstrip_by f (lstrip_by f s).

Definition apostrophe : ascii := ascii_of_N 39.
Definition double_quote : ascii := ascii_of_N 34.

(** [q.strip()], then the strip of apostrophes, then the strip of double
    quotes. *)
Definition clean_query (q : string) : string :=
  strip_by (Ascii.eqb double_quote) (strip_by (Ascii.eqb apostrophe) (PyStr.strip q)).

(** The list of keywords made of the first answer. *)
Definition parse_queries (queries_input : string) : list string :=
  if String.eqb queries_input "" then Config.DEFAULT_QUERIES
  else map clean_query (str_split "," queries_input).

(** [answer or default] *)
Definition or_default (answer default : string) : string :=
  if String.eqb answer "" then default else answer.

(** How the script ends: [main] was run, or [input] found no line left. *)
Inductive script_result : Type :=
| Ran (w : world) (r : res unit)
| EOFError (w : world).

(** The line printed for an answer that is no number. *)
Definition invalid_input : string :=
  "Invalid input. Please enter a number for the number of papers.".

Section Script.

(** [int(s)], [None] standing for its [ValueError]. *)
Variable int : string -> option Z.

(** The [while True] loop that asks for the number of papers: [inputs] are
    the lines still to be read.  The prompts [input] writes are not among
    the printed lines. *)
Fixpoint ask_num_papers (inputs : list string) (w : world)
  : option (Z * list string) * world :=
  match inputs with
  | [] => (None, w)
  | answer :: inputs' =>
      let num_papers_input := or_default answer "5" in
      match int num_papers_input with
      | Some num_papers => (Some (num_papers, inputs'), w)
      | None =>
          ask_num_papers inputs' (print invalid_input w)
      end
  end.

(** The [__main__] block. *)
Definition script (E : env) (inputs : list string) (w : world) : script_result :=
  match inputs with
  | queries_input :: start_input :: end_input :: inputs' =>
      let queries := parse_queries queries_input in
      let start_year_month := or_default start_input Config.DEFAULT_START_YEAR_MONTH in
      let end_year_month := or_default end_input Config.DEFAULT_END_YEAR_MONTH in
      match ask_num_papers inputs' w with
      | (None, w') => EOFError w'
      | (Some (num_papers, _), w') =>
          let (w'', r) := main E queries start_year_month end_year_month num_papers w' in
          Ran w'' r
      end
  | _ => EOFError w
  end.

End Script.

(** ** Further reference definitions *)

(** The dict an entry contributes when the loop takes it. *)
Definition accepted (E : env) (downloaded_titles : list string) (e : entry)
  : option paper :=
  match loop_body E downloaded_titles e with
  | Ok (Some p) => Some p
  | _ => None
  end.

(** The three lines [main] prints before it reads the ledger. *)
Definition banner (E : env) (start_year_month end_year_month : string) : list string :=
  [repeat_string "-" 50;
   "[" +:+ today E +:+ "] Crawling papers from arXiv from "
   +:+ start_year_month +:+ " to " +:+ end_year_month;
   repeat_string "-" 50].

(** A toy [int] for running the prompts: decimal digits only. *)
Definition digits_only_int (s : string) : option Z :=
  match s with
  | EmptyString => None
  | _ =>
      if PyStr.all_chars PyStr.is_digit s
      then Some (fold_left (fun acc c => 10 * acc + DateTime.digit_val c)
                   (list_ascii_of_string s) 0)
      else None
  end.

(** The number of times [c] occurs in [s]. *)
Fixpoint count_char (c : ascii) (s : string) : nat :=
  match s with
  | EmptyString => O
  | String x s' => (if Ascii.eqb x c then 1 else 0) + count_char c s'
  end.

(** ** The ledger file as pandas reads and writes it *)

(** [pd.read_csv(csv_path)] with its defaults, [pd.DataFrame],
    [pd.concat] and [to_csv(csv_path, index=False)], on the texts of the
    fields of the file (the quoting of the CSV format left out). *)
Module Pandas.

(** The texts [read_csv] takes for a missing value by default. *)
Definition na_values : list string :=
  [""; "#N/A"; "#N/A N/A"; "#NA"; "-1.#IND"; "-1.#QNAN"; "-NaN"; "-nan";
   "1.#IND"; "1.#QNAN"; "<NA>"; "N/A"; "NA"; "NULL"; "NaN"; "None"; "n/a";
   "nan"; "null"].

Definition is_na (t : string) : bool := bool_decide (t ∈ na_values).

(** A value of the table: a [str]; the missing value; an [int64], held as
    its decimal numeral without leading zeros, which is also how it is
    written; a value of another inferred type (a float, a bool, a large
    integer), held as the text it is written as. *)
Inductive cell : Type :=
| Str (s : string)
| NaN
| Int (numeral : string)
| Parsed (shown : string).

#[global] Instance cell_eq_dec : EqDecision cell.
Proof. solve_decision. Defined.

(** A row of the table. *)
Record record : Type := {
  df_Download_Date : cell;
  df_YearMonth : cell;
  df_Title : cell;
  df_Journal : cell;
  df_First_Author : cell
}.

(** One to eighteen digits: a text every [int64] column takes. *)
Definition is_whole_number (t : string) : bool :=
  (1 <=? String.length t)%nat && (String.length t <=? 18)%nat
  && PyStr.all_chars PyStr.is_digit t.

Section Reading.

(** The type inference of [read_csv] beyond columns of whole numbers: from
    whether the column has a missing value and from its other texts, either
    [None], the column stays text, or how each text of the column is written
    once parsed.  What it is depends on the version of pandas; nothing is
    assumed of it. *)
Variable other_dtype : bool -> list string -> option (string -> string).

(** What [read_csv] makes of the text [t] in a column of texts. *)
Definition read_cell (column : list string) (t : string) : cell :=
  if forallb is_whole_number column then Int (DateTime.drop_zeros t)
  else if is_na t then NaN
  else
    match other_dtype (existsb is_na column)
            (List.filter (fun x => negb (is_na x)) column) with
    | Some shown => Parsed (shown t)
    | None => Str t
    end.

Definition read_csv (rows : list row) : list record :=
  map (fun r =>
         {| df_Download_Date :=
              read_cell (map row_Download_Date rows) (row_Download_Date r);
            df_YearMonth := read_cell (map row_YearMonth rows) (row_YearMonth r);
            df_Title := read_cell (map row_Title rows) (row_Title r);
            df_Journal := read_cell (map row_Journal rows) (row_Journal r);
            df_First_Author :=
              read_cell (map row_First_Author rows) (row_First_Author r) |})
      rows.

Definition read_downloaded_papers (file : list row) : list record :=
  read_csv file.

(** [downloaded_papers['Title'].tolist()] *)
Definition downloaded_titles (file : list row) : list cell :=
  map df_Title (read_downloaded_papers file).

End Reading.

(** What [to_csv] writes for a value. *)
Definition to_text (c : cell) : string :=
  match c with
  | Str s => s
  | NaN => ""
  | Int numeral => numeral
  | Parsed shown => shown
  end.

Definition to_csv (df : list record) : list row :=
  map (fun r =>
         {| row_Download_Date := to_text (df_Download_Date r);
            row_YearMonth := to_text (df_YearMonth r);
            row_Title := to_text (df_Title r);
            row_Journal := to_text (df_Journal r);
            row_First_Author := to_text (df_First_Author r) |})
      df.

(** [pd.DataFrame(all_paper_info)]: every value of the dicts is a [str]. *)
Definition DataFrame (all_paper_info : list row) : list record :=
  map (fun r =>
         {| df_Download_Date := Str (row_Download_Date r);
            df_YearMonth := Str (row_YearMonth r);
            df_Title := Str (row_Title r);
            df_Journal := Str (row_Journal r);
            df_First_Author := Str (row_First_Author r) |})
      all_paper_info.

(** The new content of the file. *)
Definition save_all_paper_info
    (other_dtype : bool -> list string -> option (string -> string))
    (all_paper_info : list row) (file : list row) : list row :=
  let df := read_downloaded_papers other_dtype file in
  let new_df := DataFrame all_paper_info in
  let df := df ++ new_df in
  to_csv df.

(** [title in downloaded_titles] for a [str] title: a [str] equals no
    missing value and no number. *)
Definition known (titles : list cell) (title : string) : bool :=
  bool_decide (Str title ∈ titles).

(** *** Reference definitions for the statements *)




(** The five columns: the field of a row of text and of a row of the
    table. *)
Definition columns : list ((row -> string) * (record -> cell)) :=
  [(row_Download_Date, df_Download_Date); (row_YearMonth, df_YearMonth);
   (row_Title, df_Title); (row_Journal, df_Journal);
   (row_First_Author, df_First_Author)].

(** A pandas that infers no type beyond whole numbers, to run the
    definitions. *)
Definition text_only : bool -> list string -> option (string -> string) :=
  fun _ _ => None.

End Pandas.

(* ================================================================= *)
(** * Properties *)

(** ** Sanity checks of the library models *)

Example strip_ex : PyStr.strip "  Paper X
 " = "Paper X".
Proof. reflexivity. Qed.

Example replace_ex : PyStr.replace "Authors:" "" "Authors: A. Bee, C. Dee" = " A. Bee, C. Dee".
Proof. reflexivity. Qed.

Example replace_overlap_ex : PyStr.replace "aa" "b" "aaa" = "ba".
Proof. reflexivity. Qed.

Example search_ex :
  Re.search "Submitted 12 June, 2024; originally announced June 2024." = Some "June 2024".
Proof. reflexivity. Qed.

Example search_none_ex : Re.search "Submitted 12 June, 2024; announced June 2024." = None.
Proof. reflexivity. Qed.

Example strptime_ex :
  DateTime.strptime_BY "June 2024" = Ok {| DateTime.year := 2024; DateTime.month := 6 |}.
Proof. reflexivity. Qed.

Example strptime_year0_ex : DateTime.strptime_BY "June 0000" = Raise ValueError.
Proof. reflexivity. Qed.

Example strftime_ex :
  DateTime.strftime_Ym false {| DateTime.year := 24; DateTime.month := 6 |} = "2406".
Proof. reflexivity. Qed.

(** ** Strings *)

#[local] Arguments String.append !s1 s2 : simpl nomatch.

Section StringFacts.
Import PyStr.

Lemma append_empty_r (s : string) : s +:+ "" = s.
Proof. induction s as [|c s IH]; simpl; [reflexivity | now rewrite IH]. Qed.

Lemma append_assoc (a b c : string) : (a +:+ b) +:+ c = a +:+ (b +:+ c).
Proof. induction a as [|x a IH]; simpl; [reflexivity | now rewrite IH]. Qed.

Lemma lstrip_head (s : string) :
  lstrip s = "" \/ exists c r, lstrip s = String c r /\ is_space c = false.
Proof.
  induction s as [|c s IH]; simpl; [now left |].
  destruct (is_space c) eqn:Hc; [exact IH | right; eauto].
Qed.

Lemma rstrip_idem (s : string) : rstrip (rstrip s) = rstrip s.
Proof.
  induction s as [|c s IH]; simpl; [reflexivity |].
  destruct (rstrip s) as [|a r] eqn:Hr.
  - destruct (is_space c) eqn:Hc; simpl; [reflexivity | now rewrite Hc].
  - change (rstrip (String c (String a r))) with
      (match rstrip (String a r) with
       | "" => if is_space c then "" else String c ""
       | r' => String c r'
       end).
    now rewrite IH.
Qed.

Lemma rstrip_keeps_head (c : ascii) (s : string) :
  is_space c = false -> exists r, rstrip (String c s) = String c r.
Proof.
  intros Hc. simpl. destruct (rstrip s); [rewrite Hc |]; eauto.
Qed.

Lemma lstrip_fixed (c : ascii) (r : string) :
  is_space c = false -> lstrip (String c r) = String c r.
Proof. intros Hc. simpl. now rewrite Hc. Qed.

(** [strip] is idempotent: a stripped title is its own stripped form. *)
Lemma strip_idem (s : string) : strip (strip s) = strip s.
Proof.
  unfold strip.
  destruct (lstrip_head s) as [-> | (c & r & -> & Hc)]; [reflexivity |].
  destruct (rstrip_keeps_head c r Hc) as [r' Hr'].
  rewrite Hr', (lstrip_fixed c r' Hc), <- Hr'. apply rstrip_idem.
Qed.

Lemma strip_prefix_app (p s r : string) :
  strip_prefix p s = Some r -> s = p +:+ r.
Proof.
  revert s; induction p as [|a p IH]; intros s H; simpl in *.
  - now inversion H.
  - destruct s as [|b s]; [discriminate |].
    destruct (Ascii.eqb a b) eqn:Hab; [| discriminate].
    apply Ascii.eqb_eq in Hab as ->. now rewrite (IH _ H).
Qed.

Lemma strip_prefix_app_inv (p r : string) : strip_prefix p (p +:+ r) = Some r.
Proof.
  induction p as [|a p IH]; simpl; [reflexivity |].
  now rewrite Ascii.eqb_refl.
Qed.

(** Replacing a one-character pattern works character by character. *)
Lemma replace_one_char (c : ascii) (new s : string) :
  replace (String c "") new s = subst_char c new s.
Proof.
  unfold replace. induction s as [|x s IH]; simpl; [reflexivity |].
  unfold startswith; simpl.
  destruct (Ascii.eqb c x); simpl; now rewrite IH.
Qed.

Lemma word_not_space (c : ascii) : is_word c = true -> is_space c = false.
Proof. destruct c as [[] [] [] [] [] [] [] []]; vm_compute; congruence. Qed.

Lemma digit_is_word (c : ascii) : is_digit c = true -> is_word c = true.
Proof. destruct c as [[] [] [] [] [] [] [] []]; vm_compute; congruence. Qed.

Lemma lower_char_idem (c : ascii) : lower_char (lower_char c) = lower_char c.
Proof. destruct c as [[] [] [] [] [] [] [] []]; reflexivity. Qed.

End StringFacts.

(** ** The pattern search returns only what the pattern describes *)

Section SearchFacts.
Import PyStr Re.

Lemma match_year_sound (s g : string) :
  match_year s = Some g ->
  exists y post, s = " " +:+ y +:+ post /\ g = " " +:+ y /\ year_text y.
Proof.
  unfold match_year.
  destruct s as [|sp [|d1 [|d2 [|d3 [|d4 post]]]]]; try discriminate.
  destruct (Ascii.eqb sp " ") eqn:Hsp; [| discriminate].
  destruct (is_digit d1) eqn:H1, (is_digit d2) eqn:H2,
           (is_digit d3) eqn:H3, (is_digit d4) eqn:H4; try discriminate.
  simpl. intros [= <-]. apply Ascii.eqb_eq in Hsp as ->.
  exists (String d1 (String d2 (String d3 (String d4 "")))), post.
  repeat split; simpl. now rewrite H1, H2, H3, H4.
Qed.

Lemma match_word_run_sound (s g : string) :
  match_word_run s = Some g ->
  exists w y post,
    s = w +:+ " " +:+ y +:+ post /\ g = w +:+ " " +:+ y
    /\ all_chars is_word w = true /\ year_text y.
Proof.
  revert g; induction s as [|c s IH]; intros g; simpl.
  - discriminate.
  - assert (Hyear : match_year (String c s) = Some g ->
                    exists w y post,
                      String c s = w +:+ " " +:+ y +:+ post /\ g = w +:+ " " +:+ y
                      /\ all_chars is_word w = true /\ year_text y).
    { intros H. destruct (match_year_sound _ _ H) as (y & post & Hs & Hg & Hy).
      exists "", y, post. simpl. auto. }
    destruct (is_word c) eqn:Hc; [| exact Hyear].
    destruct (match_word_run s) as [g'|] eqn:Hrun; [| exact Hyear].
    intros [= <-].
    destruct (IH _ eq_refl) as (w & y & post & -> & -> & Hw & Hy).
    exists (String c w), y, post. repeat split; simpl; try apply Hy.
    now rewrite Hc, Hw.
Qed.

Lemma match_group_sound (s g : string) :
  match_group s = Some g ->
  exists w y post,
    s = w +:+ " " +:+ y +:+ post /\ g = w +:+ " " +:+ y
    /\ w <> "" /\ all_chars is_word w = true /\ year_text y.
Proof.
  unfold match_group. destruct s as [|c s]; [discriminate |].
  destruct (is_word c) eqn:Hc; [| discriminate].
  destruct (match_word_run s) as [g'|] eqn:Hrun; [| discriminate].
  simpl. intros [= <-].
  destruct (match_word_run_sound _ _ Hrun) as (w & y & post & -> & -> & Hw & Hy).
  exists (String c w), y, post. repeat split; simpl; try apply Hy; try discriminate.
  now rewrite Hc, Hw.
Qed.

Lemma search_sound (s g : string) :
  search s = Some g ->
  exists w y, announced_at s w y /\ g = w +:+ " " +:+ y.
Proof.
  induction s as [|c s IH]; simpl.
  - vm_compute. discriminate.
  - destruct (match_here (String c s)) as [g'|] eqn:Hhere.
    + intros [= <-]. unfold match_here in Hhere.
      destruct (strip_prefix "originally announced " (String c s)) as [r|] eqn:Hp;
        [| discriminate].
      simpl in Hhere.
      destruct (match_group_sound _ _ Hhere) as (w & y & post & -> & -> & Hne & Hw & Hy).
      exists w, y. split; [| reflexivity].
      exists "", post. simpl. split; [exact (strip_prefix_app _ _ _ Hp) |].
      repeat split; try assumption; apply Hy.
    + intros H. destruct (IH H) as (w & y & (pre & post & -> & Hrest) & ->).
      exists w, y. split; [| reflexivity].
      now exists (String c pre), post.
Qed.

(** A text with no announcement in it gives no match. *)
Lemma search_none (s : string) : ~ has_announcement s -> search s = None.
Proof.
  intros Hno. destruct (search s) as [g|] eqn:Hs; [| reflexivity].
  destruct (search_sound _ _ Hs) as (w & y & Ha & _).
  exfalso. apply Hno. now exists w, y.
Qed.

End SearchFacts.

(** ** The pattern search finds a match whenever there is one *)

Section SearchComplete.
Import PyStr Re.

Lemma match_year_complete (y post : string) :
  year_text y -> match_year (" " +:+ y +:+ post) = Some (" " +:+ y).
Proof.
  intros [Hlen Hdig].
  destruct y as [|d1 [|d2 [|d3 [|d4 [|? ?]]]]]; try discriminate.
  simpl in Hdig. unfold match_year. simpl.
  destruct (is_digit d1), (is_digit d2), (is_digit d3), (is_digit d4);
    try discriminate.
  reflexivity.
Qed.

Lemma match_word_run_complete (w y post : string) :
  all_chars is_word w = true -> year_text y ->
  is_Some (match_word_run (w +:+ " " +:+ y +:+ post)).
Proof.
  intros Hw Hy. induction w as [|c w IH].
  - change (is_Some (match_year (" " +:+ y +:+ post))).
    rewrite match_year_complete by assumption. eauto.
  - simpl in Hw. apply andb_prop in Hw as [Hc Hw].
    destruct (IH Hw) as [g Hg]. simpl in Hg |- *.
    rewrite Hc, Hg. eauto.
Qed.

Lemma match_group_complete (w y post : string) :
  w <> "" -> all_chars is_word w = true -> year_text y ->
  is_Some (match_group (w +:+ " " +:+ y +:+ post)).
Proof.
  intros Hne Hw Hy. destruct w as [|c w]; [congruence |].
  simpl in Hw. apply andb_prop in Hw as [Hc Hw].
  destruct (match_word_run_complete w y post Hw Hy) as [g Hg].
  unfold match_group. simpl in Hg |- *. rewrite Hc, Hg. simpl. eauto.
Qed.

Lemma search_unfold (s : string) :
  search s =
  match match_here s with
  | Some g => Some g
  | None => match s with "" => None | String _ s' => search s' end
  end.
Proof. destruct s; reflexivity. Qed.

Lemma search_complete (s : string) : has_announcement s -> is_Some (search s).
Proof.
  intros (w & y & pre & post & -> & Hne & Hw & Hy).
  induction pre as [|c pre IH].
  - rewrite search_unfold. unfold match_here.
    change ("" +:+ "originally announced " +:+ w +:+ " " +:+ y +:+ post)
      with ("originally announced " +:+ (w +:+ " " +:+ y +:+ post)).
    rewrite strip_prefix_app_inv.
    destruct (match_group_complete w y post Hne Hw Hy) as [g Hg].
    unfold mbind, option_bind. rewrite Hg. eauto.
  - rewrite search_unfold. simpl.
    destruct (match_here _); eauto.
Qed.

Lemma has_announcement_search (s : string) :
  has_announcement s <-> is_Some (search s).
Proof.
  split; [apply search_complete |].
  intros [g Hg]. destruct (search_sound _ _ Hg) as (w & y & Ha & _).
  now exists w, y.
Qed.

#[global] Instance has_announcement_dec (s : string) : Decision (has_announcement s).
Proof.
  refine (cast_if (decide (is_Some (search s)))); now rewrite has_announcement_search.
Defined.

End SearchComplete.

(** ** The parsing loop *)

Section LoopFacts.
Variables (E : env) (num_papers : Z) (downloaded_titles : list string).

Lemma loop_body_emits (e : entry) (p : paper) :
  loop_body E downloaded_titles e = Ok (Some p) ->
  exists t, p_title e = Some t /\ Title p = PyStr.strip t
            /\ Title p ∉ downloaded_titles.
Proof.
  unfold loop_body. intros H.
  repeat case_match; simplify_eq.
  eexists; split; [reflexivity | split; [reflexivity |]].
  simpl. eapply bool_decide_eq_false_1; eassumption.
Qed.

Lemma loop_body_known_title (e : entry) (t : string) :
  p_title e = Some t -> PyStr.strip t ∈ downloaded_titles ->
  loop_body E downloaded_titles e = Ok None.
Proof.
  intros Ht Hin. unfold loop_body. rewrite Ht.
  now rewrite bool_decide_eq_true_2.
Qed.

Lemma fetch_loop_full (es : list entry) (acc : list paper) :
  num_papers <= Z.of_nat (length acc) ->
  fetch_loop E num_papers downloaded_titles es acc = Ok acc.
Proof.
  intros Hfull. destruct es as [|e es]; simpl; [reflexivity |].
  destruct (Z.geb_spec (Z.of_nat (length acc)) num_papers); [reflexivity | lia].
Qed.

Lemma fetch_loop_skip (e : entry) (es : list entry) (acc : list paper) :
  loop_body E downloaded_titles e = Ok None ->
  fetch_loop E num_papers downloaded_titles (e :: es) acc
  = fetch_loop E num_papers downloaded_titles es acc.
Proof.
  intros Hbody. simpl. rewrite Hbody.
  destruct (Z.geb_spec (Z.of_nat (length acc)) num_papers); [| reflexivity].
  symmetry. apply fetch_loop_full. lia.
Qed.

Lemma fetch_loop_raise (e : entry) (es : list entry) (acc : list paper) (x : exn) :
  Z.of_nat (length acc) < num_papers ->
  loop_body E downloaded_titles e = Raise x ->
  fetch_loop E num_papers downloaded_titles (e :: es) acc = Raise x.
Proof.
  intros Hlt Hbody. simpl. rewrite Hbody.
  destruct (Z.geb_spec (Z.of_nat (length acc)) num_papers); [lia | reflexivity].
Qed.

(** The dicts added by the loop come, in order, from entries of the page
    taken in order. *)
Lemma fetch_loop_trace (es : list entry) (acc out : list paper) :
  fetch_loop E num_papers downloaded_titles es acc = Ok out ->
  exists es' new,
    out = acc ++ new /\ sublist es' es
    /\ Forall2 (fun e p => loop_body E downloaded_titles e = Ok (Some p)) es' new.
Proof.
  revert acc; induction es as [|e es IH]; intros acc; simpl.
  - intros [= <-]. exists [], []. rewrite app_nil_r. repeat constructor.
  - destruct (Z.of_nat (length acc) >=? num_papers).
    { intros [= <-]. exists [], []. rewrite app_nil_r.
      repeat split; [apply sublist_nil_l | constructor]. }
    destruct (loop_body E downloaded_titles e) as [[p|]|x] eqn:Hbody;
      [| | discriminate]; intros H.
    + destruct (IH _ H) as (es' & new & -> & Hsub & Hall).
      exists (e :: es'), (p :: new). rewrite <- app_assoc.
      repeat split; [now apply sublist_skip | now constructor].
    + destruct (IH _ H) as (es' & new & -> & Hsub & Hall).
      exists es', new. repeat split; [now apply sublist_cons | assumption].
Qed.

Lemma fetch_loop_length (es : list entry) (acc out : list paper) :
  fetch_loop E num_papers downloaded_titles es acc = Ok out ->
  Z.of_nat (length out) <= Z.max (Z.of_nat (length acc)) num_papers.
Proof.
  revert acc; induction es as [|e es IH]; intros acc; simpl.
  - intros [= <-]. lia.
  - destruct (Z.geb_spec (Z.of_nat (length acc)) num_papers) as [Hge|Hlt].
    { intros [= <-]. lia. }
    destruct (loop_body E downloaded_titles e) as [[p|]|x];
      [| | discriminate]; intros H; apply IH in H.
    + rewrite length_app in H. simpl in H. lia.
    + exact H.
Qed.

End LoopFacts.

(** ** The result parser *)

(** C3: for every page, every list of known titles and every maximum
    count, each dict the parser returns carries a title that is stripped of
    surrounding whitespace, is the stripped title text of an entry of the
    page, and is not among the known titles. *)
Theorem parser_never_emits_known_title (E : env) (queries : list string)
    (start_year_month end_year_month : string) (num_papers : Z)
    (downloaded_titles : list string) (papers : list paper) :
  fetch_arxiv_papers E queries start_year_month end_year_month num_papers
    downloaded_titles = Ok papers ->
  Forall (fun p =>
            (PyStr.strip (Title p) ∉ downloaded_titles)
            /\ PyStr.strip (Title p) = Title p
            /\ exists e t, e ∈ page_entries E (search_url queries)
                           /\ p_title e = Some t /\ Title p = PyStr.strip t)
         papers.
Proof.
  unfold fetch_arxiv_papers. intros H.
  destruct (fetch_loop_trace _ _ _ _ _ _ H) as (es' & new & -> & Hsub & Hall).
  simpl. clear H.
  induction Hall as [|e p es' new Hbody Hall IH]; constructor.
  - destruct (loop_body_emits _ _ _ _ Hbody) as (t & Ht & Htitle & Hnotin).
    assert (Hidem : PyStr.strip (Title p) = Title p)
      by (rewrite Htitle; apply strip_idem).
    rewrite Hidem. repeat split; [assumption |].
    exists e, t. repeat split; try assumption.
    eapply elem_of_sublist; [apply list_elem_of_here | exact Hsub].
  - apply IH. etransitivity; [apply sublist_cons, reflexivity | exact Hsub].
Qed.

Lemma parser_never_emits_known_title_witness :
  fetch_arxiv_papers (Sample.E [Sample.paper_x; Sample.paper_y]) ["fairness"]
    "202301" "202312" 5 ["Paper X"] = Ok [Sample.record_y]
  /\ Forall (fun p =>
               (PyStr.strip (Title p) ∉ ["Paper X"])
               /\ PyStr.strip (Title p) = Title p
               /\ exists e t, e ∈ [Sample.paper_x; Sample.paper_y]
                              /\ p_title e = Some t /\ Title p = PyStr.strip t)
            [Sample.record_y].
Proof.
  split; [reflexivity |].
  apply (parser_never_emits_known_title
           (Sample.E [Sample.paper_x; Sample.paper_y]) ["fairness"]
           "202301" "202312" 5 ["Paper X"] [Sample.record_y]).
  reflexivity.
Defined.

(** C4, as the specification states it, fails for a negative maximum
    count: the loop leaves at once with the empty list, whose length is
    not below the count. *)
Lemma negative_count_is_no_bound :
  ~ (forall (E : env) (queries : list string) (s e : string) (num_papers : Z)
            (downloaded_titles : list string) (papers : list paper),
        fetch_arxiv_papers E queries s e num_papers downloaded_titles = Ok papers ->
        Z.of_nat (length papers) <= num_papers).
Proof.
  intros H.
  specialize (H (Sample.E [Sample.paper_x]) [] "" "" (-1) [] [] eq_refl).
  simpl in H. lia.
Qed.

(** C4, amended: for every page, every list of known titles and every
    maximum count, the parser returns at most that many dicts when the
    count is not negative and none when it is, and the dicts returned are
    those of a subsequence of the page's entries, in the order of the
    page. *)
Theorem parser_emits_bounded_in_order (E : env) (queries : list string)
    (start_year_month end_year_month : string) (num_papers : Z)
    (downloaded_titles : list string) (papers : list paper) :
  fetch_arxiv_papers E queries start_year_month end_year_month num_papers
    downloaded_titles = Ok papers ->
  Z.of_nat (length papers) <= Z.max 0 num_papers
  /\ exists es,
       sublist es (page_entries E (search_url queries))
       /\ Forall2 (fun e p => loop_body E downloaded_titles e = Ok (Some p)) es papers.
Proof.
  unfold fetch_arxiv_papers. intros H. split.
  - apply fetch_loop_length in H. exact H.
  - destruct (fetch_loop_trace _ _ _ _ _ _ H) as (es & new & -> & Hsub & Hall).
    now exists es.
Qed.

Lemma parser_emits_bounded_in_order_witness :
  fetch_arxiv_papers
    (Sample.E [Sample.undated; Sample.paper_y; Sample.paper_x; Sample.paper_y_again])
    ["fairness"] "202301" "202312" 2 [] = Ok [Sample.record_y; Sample.record_x]
  /\ Z.of_nat (length [Sample.record_y; Sample.record_x]) <= Z.max 0 2
  /\ exists es,
       sublist es [Sample.undated; Sample.paper_y; Sample.paper_x; Sample.paper_y_again]
       /\ Forall2 (fun e p =>
                     loop_body
                       (Sample.E [Sample.undated; Sample.paper_y; Sample.paper_x;
                                  Sample.paper_y_again]) [] e = Ok (Some p))
                  es [Sample.record_y; Sample.record_x].
Proof.
  split; [reflexivity |].
  apply (parser_emits_bounded_in_order
           (Sample.E [Sample.undated; Sample.paper_y; Sample.paper_x;
                      Sample.paper_y_again])
           ["fairness"] "202301" "202312" 2 [] [Sample.record_y; Sample.record_x]).
  reflexivity.
Defined.

(** C5: an entry whose stripped title is among the known titles is passed
    over on the title alone: whatever its announcement text, authors and
    links are, present or not, the loop body neither raises nor appends,
    and the loop goes on with the rest of the page. *)
Theorem known_title_skipped_before_extraction (E : env) (num_papers : Z)
    (downloaded_titles : list string) (e : entry) (t : string)
    (rest : list entry) (papers : list paper) :
  p_title e = Some t ->
  PyStr.strip t ∈ downloaded_titles ->
  loop_body E downloaded_titles e = Ok None
  /\ (forall info authors hrefs,
        loop_body E downloaded_titles
          {| p_title := Some t; p_is_size_7 := info;
             p_authors := authors; a_hrefs := hrefs |} = Ok None)
  /\ fetch_loop E num_papers downloaded_titles (e :: rest) papers
     = fetch_loop E num_papers downloaded_titles rest papers.
Proof.
  intros Ht Hin. split; [| split].
  - now apply loop_body_known_title with t.
  - intros info authors hrefs. now apply loop_body_known_title with t.
  - apply fetch_loop_skip. now apply loop_body_known_title with t.
Qed.

Lemma known_title_skipped_before_extraction_witness :
  p_title Sample.bare_paper_x = Some "Paper X
"
  /\ (PyStr.strip "Paper X
" ∈ ["Paper X"])
  /\ loop_body (Sample.E []) ["Paper X"] Sample.bare_paper_x = Ok None
  /\ (forall info authors hrefs,
        loop_body (Sample.E []) ["Paper X"]
          {| p_title := Some "Paper X
"; p_is_size_7 := info;
             p_authors := authors; a_hrefs := hrefs |} = Ok None)
  /\ fetch_loop (Sample.E []) 5 ["Paper X"] [Sample.bare_paper_x; Sample.paper_y] []
     = fetch_loop (Sample.E []) 5 ["Paper X"] [Sample.paper_y] [].
Proof.
  split; [reflexivity |]. split; [vm_compute; apply list_elem_of_here |].
  apply (known_title_skipped_before_extraction (Sample.E []) 5 ["Paper X"]
           Sample.bare_paper_x "Paper X
" [Sample.paper_y] []).
  - reflexivity.
  - vm_compute. apply list_elem_of_here.
Defined.

(** C6: an entry whose stripped title is not known and whose announcement
    text holds no [originally announced <word> <four digits>] is dropped
    without an exception, and the loop goes on with the rest of the
    page. *)
Theorem unannounced_entry_dropped (E : env) (num_papers : Z)
    (downloaded_titles : list string) (e : entry) (t info : string)
    (rest : list entry) (papers : list paper) :
  p_title e = Some t ->
  PyStr.strip t ∉ downloaded_titles ->
  p_is_size_7 e = Some info ->
  ~ has_announcement (PyStr.strip info) ->
  loop_body E downloaded_titles e = Ok None
  /\ fetch_loop E num_papers downloaded_titles (e :: rest) papers
     = fetch_loop E num_papers downloaded_titles rest papers.
Proof.
  intros Ht Hnew Hinfo Hno.
  assert (Hbody : loop_body E downloaded_titles e = Ok None).
  { unfold loop_body. rewrite Ht, Hinfo.
    rewrite bool_decide_eq_false_2 by assumption.
    now rewrite (search_none _ Hno). }
  split; [exact Hbody | now apply fetch_loop_skip].
Qed.

Lemma unannounced_entry_dropped_witness :
  p_title Sample.undated = Some "Paper Z"
  /\ (PyStr.strip "Paper Z" ∉ ["Paper X"])
  /\ p_is_size_7 Sample.undated = Some "Submitted 1 June, 2024."
  /\ ~ has_announcement (PyStr.strip "Submitted 1 June, 2024.")
  /\ loop_body (Sample.E []) ["Paper X"] Sample.undated = Ok None
  /\ fetch_loop (Sample.E []) 5 ["Paper X"] [Sample.undated; Sample.paper_y] []
     = fetch_loop (Sample.E []) 5 ["Paper X"] [Sample.paper_y] [].
Proof.
  assert (Hnew : PyStr.strip "Paper Z" ∉ ["Paper X"]).
  { apply (bool_decide_eq_false_1 (PyStr.strip "Paper Z" ∈ ["Paper X"])). reflexivity. }
  assert (Hno : ~ has_announcement (PyStr.strip "Submitted 1 June, 2024.")).
  { apply (bool_decide_eq_false_1 (has_announcement _)). reflexivity. }
  split; [reflexivity |]. split; [exact Hnew |].
  split; [reflexivity |]. split; [exact Hno |].
  apply (unannounced_entry_dropped (Sample.E []) 5 ["Paper X"] Sample.undated
           "Paper Z" "Submitted 1 June, 2024." [Sample.paper_y] []);
    [reflexivity | exact Hnew | reflexivity | exact Hno].
Defined.

(** ** Month conversion *)

Section DateFacts.
Import PyStr DateTime.

Lemma lower_app (a b : string) : lower (a +:+ b) = lower a +:+ lower b.
Proof. induction a as [|c a IH]; simpl; [reflexivity | now rewrite IH]. Qed.

Lemma all_chars_app (f : ascii -> bool) (a b : string) :
  all_chars f (a +:+ b) = all_chars f a && all_chars f b.
Proof.
  induction a as [|c a IH]; simpl; [reflexivity |].
  now rewrite IH, andb_assoc.
Qed.

Lemma lower_empty (s : string) : lower s = "" -> s = "".
Proof. destruct s; [reflexivity | discriminate]. Qed.

Lemma lower_idem (s : string) : lower (lower s) = lower s.
Proof.
  induction s as [|c s IH]; simpl; [reflexivity |].
  now rewrite lower_char_idem, IH.
Qed.

Lemma strip_prefix_ci_sound (n s r : string) :
  strip_prefix_ci n s = Some r ->
  exists s1, s = s1 +:+ r /\ lower s1 = lower n.
Proof.
  revert s; induction n as [|a n IH]; intros s; simpl.
  - intros [= ->]. now exists "".
  - destruct s as [|b s]; [discriminate |].
    destruct (Ascii.eqb (lower_char a) (lower_char b)) eqn:Hab; [| discriminate].
    apply Ascii.eqb_eq in Hab. intros H.
    destruct (IH _ H) as (s1 & -> & Hs1).
    exists (String b s1). simpl. now rewrite Hab, Hs1.
Qed.

Lemma strip_prefix_ci_complete (n s1 r : string) :
  lower s1 = lower n -> strip_prefix_ci n (s1 +:+ r) = Some r.
Proof.
  revert s1; induction n as [|a n IH]; intros [|b s1]; simpl; try discriminate.
  - reflexivity.
  - intros [= Hab Hrest]. rewrite Hab, Ascii.eqb_refl. now apply IH.
Qed.

(** Two ways of cutting one string: one of the first parts starts the
    other. *)
Lemma append_eq_split (s1 r w t : string) :
  s1 +:+ r = w +:+ t ->
  (exists u, w = s1 +:+ u /\ r = u +:+ t)
  \/ (exists c u, s1 = w +:+ String c u /\ t = String c u +:+ r).
Proof.
  revert w; induction s1 as [|a s1 IH]; intros w; simpl.
  - intros ->. left. now exists w.
  - destruct w as [|b w]; simpl.
    + intros <-. right. now exists a, s1.
    + intros [= -> H]. destruct (IH _ H) as [(u & -> & ->) | (c & u & -> & ->)].
      * left. now exists u.
      * right. now exists c, u.
Qed.

Lemma month_names_letters (n : string) :
  n ∈ month_names -> all_chars is_ascii_letter n = true /\ lower n = n.
Proof.
  unfold month_names. intros H.
  repeat (apply elem_of_cons in H as [-> | H]; [now vm_compute |]).
  now apply elem_of_nil in H.
Qed.

Lemma lower_char_letter (c : ascii) :
  is_ascii_letter (lower_char c) = is_ascii_letter c.
Proof. destruct c as [[] [] [] [] [] [] [] []]; reflexivity. Qed.

Lemma all_letters_lower (s : string) :
  all_chars is_ascii_letter (lower s) = all_chars is_ascii_letter s.
Proof.
  induction s as [|c s IH]; simpl; [reflexivity |].
  now rewrite lower_char_letter, IH.
Qed.

(** A month name that starts [w y], [w] a word, ends inside [w]. *)
Lemma month_prefix_in_word (n w y r : string) :
  n ∈ month_names ->
  strip_prefix_ci n (w +:+ " " +:+ y) = Some r ->
  exists w1 w2, w = w1 +:+ w2 /\ lower w1 = n /\ r = w2 +:+ " " +:+ y.
Proof.
  intros Hn Hpre.
  destruct (month_names_letters n Hn) as [Hletters Hlow].
  destruct (strip_prefix_ci_sound _ _ _ Hpre) as (s1 & Hcut & Hs1).
  rewrite Hlow in Hs1.
  destruct (append_eq_split _ _ _ _ (eq_sym Hcut)) as [(u & -> & ->) | (c & u & -> & Hr)].
  - (* the name ends inside the word *)
    now exists s1, u.
  - (* the word ends first: impossible, the space is no letter *)
    exfalso. rewrite <- Hs1, all_letters_lower, all_chars_app in Hletters.
    simpl in Hr. injection Hr as <- _.
    simpl in Hletters. rewrite andb_false_r in Hletters. discriminate.
Qed.

(** No month name starts another one. *)
Lemma month_names_prefix_free (n n' u : string) :
  n ∈ month_names -> n' ∈ month_names -> n' = n +:+ u -> u = "".
Proof.
  unfold month_names. intros Hn Hn' Heq.
  repeat (apply elem_of_cons in Hn as [-> | Hn]);
    try (now apply elem_of_nil in Hn);
    repeat (apply elem_of_cons in Hn' as [-> | Hn']);
    try (now apply elem_of_nil in Hn');
    simpl in Heq; congruence.
Qed.

Lemma match_month_some (names : list string) (k m : Z) (s r : string) :
  match_month names k s = Some (m, r) ->
  exists (i : nat) n,
    names !! i = Some n /\ m = k + Z.of_nat i /\ strip_prefix_ci n s = Some r.
Proof.
  revert k; induction names as [|n names IH]; intros k; simpl; [discriminate |].
  destruct (strip_prefix_ci n s) as [r'|] eqn:Hpre.
  - intros [= <- <-]. exists 0%nat, n. repeat split; [lia | exact Hpre].
  - intros H. destruct (IH _ H) as (i & n' & Hi & -> & Hr).
    exists (S i), n'. repeat split; [exact Hi | lia | exact Hr].
Qed.

Lemma match_month_found (names : list string) (k : Z) (s r : string) (i : nat) (n : string) :
  names !! i = Some n ->
  strip_prefix_ci n s = Some r ->
  (forall j n', (j < i)%nat -> names !! j = Some n' -> strip_prefix_ci n' s = None) ->
  match_month names k s = Some (k + Z.of_nat i, r).
Proof.
  revert k i; induction names as [|n0 names IH]; intros k i Hi Hpre Hbefore.
  - discriminate.
  - destruct i as [|i]; simpl in *.
    + injection Hi as ->. rewrite Hpre. do 2 f_equal. lia.
    + rewrite (Hbefore 0%nat n0) by (lia || reflexivity).
      rewrite (IH (k + 1) i Hi Hpre).
      * do 2 f_equal. lia.
      * intros j n' Hj Hn'. apply (Hbefore (S j) n'); [lia | exact Hn'].
Qed.

Lemma month_names_NoDup : NoDup month_names.
Proof. apply (bool_decide_eq_true_1 (NoDup month_names)). reflexivity. Qed.

Lemma digit_val_range (c : ascii) : is_digit c = true -> 0 <= digit_val c <= 9.
Proof.
  destruct c as [[] [] [] [] [] [] [] []]; vm_compute; intros H;
    try discriminate H; split; discriminate.
Qed.

Lemma digit_char_val (c : ascii) : is_digit c = true -> digit_char (digit_val c) = c.
Proof. destruct c as [[] [] [] [] [] [] [] []]; vm_compute; congruence. Qed.

Lemma digit_val_zero (c : ascii) :
  is_digit c = true -> digit_val c = 0 -> c = "0"%char.
Proof. destruct c as [[] [] [] [] [] [] [] []]; vm_compute; congruence. Qed.

Lemma year_text_digits (y : string) :
  year_text y ->
  exists d1 d2 d3 d4,
    y = String d1 (String d2 (String d3 (String d4 "")))
    /\ is_digit d1 = true /\ is_digit d2 = true
    /\ is_digit d3 = true /\ is_digit d4 = true.
Proof.
  intros [Hlen Hdig].
  destruct y as [|d1 [|d2 [|d3 [|d4 [|? ?]]]]]; try discriminate.
  simpl in Hdig.
  destruct (is_digit d1) eqn:H1, (is_digit d2) eqn:H2,
           (is_digit d3) eqn:H3, (is_digit d4) eqn:H4;
    simpl in Hdig; try discriminate Hdig.
  exists d1, d2, d3, d4. repeat split; assumption.
Qed.

Lemma dec4_year_val (y : string) : year_text y -> dec4 (year_val y) = y.
Proof.
  intros Hy. destruct (year_text_digits y Hy) as (d1 & d2 & d3 & d4 & -> & H1 & H2 & H3 & H4).
  pose proof (digit_val_range d1 H1). pose proof (digit_val_range d2 H2).
  pose proof (digit_val_range d3 H3). pose proof (digit_val_range d4 H4).
  unfold dec4, year_val.
  set (v := 1000 * digit_val d1 + 100 * digit_val d2 + 10 * digit_val d3 + digit_val d4).
  assert (v / 1000 = digit_val d1) as -> by (subst v; Z.div_mod_to_equations; lia).
  assert (v / 100 mod 10 = digit_val d2) as -> by (subst v; Z.div_mod_to_equations; lia).
  assert (v / 10 mod 10 = digit_val d3) as -> by (subst v; Z.div_mod_to_equations; lia).
  assert (v mod 10 = digit_val d4) as -> by (subst v; Z.div_mod_to_equations; lia).
  now rewrite !digit_char_val.
Qed.

Lemma year_val_zero (y : string) : year_text y -> year_val y < 1 -> y = "0000".
Proof.
  intros Hy Hlt. destruct (year_text_digits y Hy) as (d1 & d2 & d3 & d4 & -> & H1 & H2 & H3 & H4).
  pose proof (digit_val_range d1 H1). pose proof (digit_val_range d2 H2).
  pose proof (digit_val_range d3 H3). pose proof (digit_val_range d4 H4).
  unfold year_val in Hlt.
  rewrite (digit_val_zero d1), (digit_val_zero d2), (digit_val_zero d3),
    (digit_val_zero d4); (reflexivity || assumption || lia).
Qed.

End DateFacts.

Section ConversionFacts.
Import PyStr DateTime.

(** What [strptime] does once [%B] has taken the whole month word. *)
Lemma strptime_tail (m : Z) (y : string) :
  year_text y ->
  match String " " y with
  | String sp rest =>
      if is_space sp then
        match lstrip rest with
        | String d1 (String d2 (String d3 (String d4 EmptyString))) =>
            if is_digit d1 && is_digit d2 && is_digit d3 && is_digit d4 then
              let v := year_val (String d1 (String d2 (String d3 (String d4 EmptyString)))) in
              if v <? MINYEAR then Raise ValueError
              else Ok {| year := v; month := m |}
            else Raise ValueError
        | _ => Raise ValueError
        end
      else Raise ValueError
  | EmptyString => Raise ValueError
  end
  = if year_val y <? MINYEAR then Raise ValueError
    else Ok {| year := year_val y; month := m |}.
Proof.
  intros Hy.
  destruct (year_text_digits y Hy) as (d1 & d2 & d3 & d4 & -> & H1 & H2 & H3 & H4).
  change (is_space " ") with true. cbv iota.
  rewrite lstrip_fixed by (apply word_not_space, digit_is_word, H1).
  now rewrite H1, H2, H3, H4.
Qed.

Lemma strptime_recognized (w y : string) (i : nat) :
  year_text y ->
  month_names !! i = Some (lower w) ->
  strptime_BY (w +:+ " " +:+ y)
  = if year_val y <? MINYEAR then Raise ValueError
    else Ok {| year := year_val y; month := 1 + Z.of_nat i |}.
Proof.
  intros Hy Hi.
  assert (Hmatch : match_month month_names 1 (w +:+ " " +:+ y)
                   = Some (1 + Z.of_nat i, " " +:+ y)).
  { apply match_month_found with (n := lower w).
    - exact Hi.
    - apply strip_prefix_ci_complete. symmetry. apply lower_idem.
    - intros j n' Hj Hn'.
      destruct (strip_prefix_ci n' (w +:+ " " +:+ y)) as [r|] eqn:Hp; [| reflexivity].
      exfalso.
      assert (Hin' : n' ∈ month_names) by (eapply list_elem_of_lookup_2; eassumption).
      assert (Hin : lower w ∈ month_names) by (eapply list_elem_of_lookup_2; eassumption).
      destruct (month_prefix_in_word _ _ _ _ Hin' Hp) as (w1 & w2 & -> & Hw1 & _).
      rewrite lower_app, Hw1 in Hin, Hi.
      pose proof (month_names_prefix_free n' _ (lower w2) Hin' Hin eq_refl) as Hu.
      rewrite Hu, append_empty_r in Hi.
      pose proof (NoDup_lookup _ _ _ _ month_names_NoDup Hi Hn'). lia. }
  unfold strptime_BY. rewrite Hmatch.
  exact (strptime_tail (1 + Z.of_nat i) y Hy).
Qed.

Lemma strptime_unrecognized (w y : string) :
  all_chars is_word w = true ->
  lower w ∉ month_names ->
  strptime_BY (w +:+ " " +:+ y) = Raise ValueError.
Proof.
  intros Hw Hnot. unfold strptime_BY.
  destruct (match_month month_names 1 (w +:+ " " +:+ y)) as [[m r]|] eqn:Hmatch;
    [| reflexivity].
  destruct (match_month_some _ _ _ _ _ Hmatch) as (i & n & Hi & _ & Hp).
  assert (Hin : n ∈ month_names) by (eapply list_elem_of_lookup_2; eassumption).
  destruct (month_prefix_in_word _ _ _ _ Hin Hp) as (w1 & w2 & -> & Hw1 & ->).
  destruct w2 as [|c w2].
  - exfalso. apply Hnot. now rewrite append_empty_r, Hw1.
  - rewrite all_chars_app in Hw. apply andb_prop in Hw as [_ Hw].
    simpl in Hw. apply andb_prop in Hw as [Hc _].
    simpl. now rewrite (word_not_space c Hc).
Qed.

Lemma drop_zeros_fixed (y : string) :
  startswith "0" y = false -> drop_zeros y = y.
Proof.
  destruct y as [|c [|c' y]]; try reflexivity.
  unfold startswith.
  change (strip_prefix "0" (String c (String c' y)))
    with (if Ascii.eqb "0" c then Some (String c' y) else None).
  change (drop_zeros (String c (String c' y)))
    with (if Ascii.eqb c "0" then drop_zeros (String c' y)
          else String c (String c' y)).
  rewrite (Ascii.eqb_sym c).
  destruct (Ascii.eqb "0" c); [discriminate | reflexivity].
Qed.

Lemma strftime_year_val (pads : bool) (y : string) (m : Z) :
  year_text y -> startswith "0" y = false ->
  strftime_Ym pads {| year := year_val y; month := m |} = y +:+ dec2 m.
Proof.
  intros Hy H0. unfold strftime_Ym. cbn [year month].
  rewrite (dec4_year_val y Hy).
  destruct pads; [reflexivity | now rewrite drop_zeros_fixed].
Qed.

End ConversionFacts.

(** C7, as the specification states it, fails for the year 0000: the text
    [June 0000] is matched by the pattern and names a month, and the
    conversion raises. *)
Lemma year_0000_is_not_converted :
  ~ (forall (pads : bool) (w y : string),
       w <> "" -> PyStr.all_chars PyStr.is_word w = true -> year_text y ->
       (year_month_of pads (w +:+ " " +:+ y) = Raise ValueError
        <-> PyStr.lower w ∉ DateTime.month_names)).
Proof.
  intros H.
  destruct (H false "June" "0000") as [Hraise _]; [discriminate | reflexivity | now split |].
  apply Hraise; [reflexivity |].
  apply (bool_decide_eq_true_1 (_ ∈ _)). reflexivity.
Qed.

(** C7, amended: for a matched text [w y], [w] a word and [y] four digits,
    the conversion raises [ValueError] exactly when [w] is, case apart, no
    full month name or [y] is 0000; when [w] is the month number [i + 1]
    and [y] does not start with 0, the result is [y] followed by the two
    digits of the month; a raised error leaves the loop with that error
    when the entry is reached; [June 2024] gives [202406] and
    [January 2023] gives [202301]. *)
Theorem month_conversion (pads : bool) (w y : string) :
  w <> "" -> PyStr.all_chars PyStr.is_word w = true -> year_text y ->
  (year_month_of pads (w +:+ " " +:+ y) = Raise ValueError
   <-> PyStr.lower w ∉ DateTime.month_names \/ y = "0000")
  /\ (forall i : nat,
        DateTime.month_names !! i = Some (PyStr.lower w) ->
        PyStr.startswith "0" y = false ->
        year_month_of pads (w +:+ " " +:+ y)
        = Ok (y +:+ DateTime.dec2 (1 + Z.of_nat i)))
  /\ (forall (x : exn) (E : env) (num_papers : Z) (downloaded_titles : list string)
             (e : entry) (t info : string) (rest : list entry) (papers : list paper),
        year_month_of pads (w +:+ " " +:+ y) = Raise x ->
        pads_year E = pads ->
        p_title e = Some t -> PyStr.strip t ∉ downloaded_titles ->
        p_is_size_7 e = Some info ->
        Re.search (PyStr.strip info) = Some (w +:+ " " +:+ y) ->
        Z.of_nat (length papers) < num_papers ->
        fetch_loop E num_papers downloaded_titles (e :: rest) papers = Raise x)
  /\ year_month_of pads "June 2024" = Ok "202406"
  /\ year_month_of pads "January 2023" = Ok "202301".
Proof.
  intros Hne Hw Hy. repeat split.
  - (* raising: the month is unknown or the year is 0000 *)
    intros Hraise.
    destruct (decide (PyStr.lower w ∈ DateTime.month_names)) as [Hin | Hnot];
      [right | now left].
    apply list_elem_of_lookup_1 in Hin as [i Hi].
    unfold year_month_of in Hraise.
    rewrite (strptime_recognized w y i Hy Hi) in Hraise.
    destruct (Z.ltb_spec (DateTime.year_val y) DateTime.MINYEAR) as [Hlt | Hge];
      [| discriminate].
    apply year_val_zero; assumption.
  - intros [Hnot | ->]; unfold year_month_of.
    + now rewrite strptime_unrecognized.
    + destruct (decide (PyStr.lower w ∈ DateTime.month_names)) as [Hin | Hnot].
      * apply list_elem_of_lookup_1 in Hin as [i Hi].
        now rewrite (strptime_recognized w "0000" i Hy Hi).
      * now rewrite strptime_unrecognized.
  - (* converting *)
    intros i Hi H0. unfold year_month_of.
    rewrite (strptime_recognized w y i Hy Hi).
    destruct (Z.ltb_spec (DateTime.year_val y) DateTime.MINYEAR) as [Hlt | Hge].
    + apply year_val_zero in Hlt; [| exact Hy]. subst y. discriminate.
    + f_equal. now apply strftime_year_val.
  - (* the error leaves the loop *)
    intros x E num_papers downloaded_titles e t info rest papers
      Hraise Hpads Ht Hnew Hinfo Hsearch Hlt.
    apply fetch_loop_raise; [exact Hlt |].
    unfold loop_body. rewrite Ht, Hinfo, Hsearch, Hpads, Hraise.
    now rewrite bool_decide_eq_false_2 by assumption.
  - now destruct pads.
  - now destruct pads.
Qed.

Lemma month_conversion_witness :
  "June" <> ""
  /\ PyStr.all_chars PyStr.is_word "June" = true
  /\ year_text "2024"
  /\ year_month_of false ("June" +:+ " " +:+ "2024")
     = Ok ("2024" +:+ DateTime.dec2 (1 + Z.of_nat 5)).
Proof.
  assert (Hy : year_text "2024") by (split; reflexivity).
  split; [discriminate |]. split; [reflexivity |]. split; [exact Hy |].
  destruct (month_conversion false "June" "2024") as (_ & Hconv & _);
    [discriminate | reflexivity | exact Hy |].
  apply (Hconv 5%nat); reflexivity.
Defined.

(** ** File names *)

Lemma subst_char_clean (c : ascii) (new s : string) :
  PyStr.all_chars (fun x => negb (Ascii.eqb c x)) new = true ->
  PyStr.all_chars (fun x => negb (Ascii.eqb c x)) (subst_char c new s) = true.
Proof.
  intros Hnew. induction s as [|x s IH]; simpl; [reflexivity |].
  destruct (Ascii.eqb c x) eqn:Hcx.
  - now rewrite all_chars_app, Hnew, IH.
  - simpl. now rewrite Hcx, IH.
Qed.

Lemma subst_char_keeps_clean (c d : ascii) (new s : string) :
  PyStr.all_chars (fun x => negb (Ascii.eqb d x)) new = true ->
  PyStr.all_chars (fun x => negb (Ascii.eqb d x)) s = true ->
  PyStr.all_chars (fun x => negb (Ascii.eqb d x)) (subst_char c new s) = true.
Proof.
  intros Hnew. induction s as [|x s IH]; simpl; [reflexivity |].
  intros Hs. apply andb_prop in Hs as [Hx Hs].
  destruct (Ascii.eqb c x).
  - now rewrite all_chars_app, Hnew, IH.
  - simpl. now rewrite Hx, IH.
Qed.

(** C8, as the specification states it, fails on its own example: the
    slash of [Fair AI: A/B Study] is not removed, it becomes a dash. *)
Lemma slash_is_not_removed :
  ~ (forall p : paper,
       pdf_name p
       = YearMonth p +:+ "_" +:+ title_without_colon_slash (Title p) +:+ ".pdf").
Proof.
  intros H.
  specialize (H (Sample.record "Fair AI: A/B Study" "https://arxiv.org/pdf/2406.00005")).
  vm_compute in H. discriminate H.
Qed.

(** C8, amended: the file name of a dict is its [YearMonth], an
    underscore, the sanitized title and [.pdf], where the sanitized title
    is the title with every [:] removed and every [/] turned into [-], so
    that it holds neither character; the title [Fair AI: A/B Study] gives
    [Fair AI A-B Study]. *)
Theorem pdf_file_name (p : paper) :
  pdf_name p
  = YearMonth p +:+ "_" +:+ subst_char "/" "-" (subst_char ":" "" (Title p)) +:+ ".pdf"
  /\ PyStr.all_chars (fun x => negb (Ascii.eqb ":" x)) (sanitized_title p) = true
  /\ PyStr.all_chars (fun x => negb (Ascii.eqb "/" x)) (sanitized_title p) = true
  /\ sanitized_title (Sample.record "Fair AI: A/B Study" "") = "Fair AI A-B Study".
Proof.
  assert (Hsan : sanitized_title p = subst_char "/" "-" (subst_char ":" "" (Title p))).
  { unfold sanitized_title. now rewrite !replace_one_char. }
  unfold pdf_name. rewrite Hsan. repeat split.
  - apply subst_char_keeps_clean; [reflexivity |].
    now apply subst_char_clean.
  - now apply subst_char_clean.
Qed.

(** ** The downloads *)

Section DownloadFacts.
Variables (E : env) (download_dir : string).

(** The downloads leave the ledger alone, keep every file that is there
    with its content, and only add printed lines. *)
Lemma download_papers_frame (papers : list paper) (w : world) :
  csv (download_papers E papers download_dir w).1 = csv w
  /\ (forall path data,
        files w !! path = Some data ->
        files (download_papers E papers download_dir w).1 !! path = Some data)
  /\ exists lines,
       stdout (download_papers E papers download_dir w).1 = stdout w ++ lines.
Proof.
  revert w; induction papers as [|p papers IH]; intros w; simpl.
  - repeat split; [auto | exists []; now rewrite app_nil_r].
  - destruct (files w !! pdf_path download_dir p) as [old|] eqn:Hfile.
    + match goal with |- context [download_papers E papers download_dir ?w0] =>
        destruct (IH w0) as (Hcsv & Hfiles & lines & Hout) end.
      repeat split; [exact Hcsv | exact Hfiles |].
      eexists. rewrite Hout. simpl. now rewrite <- app_assoc.
    + destruct (requests_get E (PDF_Link p)) as [r|x].
      * match goal with |- context [download_papers E papers download_dir ?w0] =>
          destruct (IH w0) as (Hcsv & Hfiles & lines & Hout) end.
        repeat split; [exact Hcsv | |].
        -- intros path data Hpath. apply Hfiles. simpl.
           rewrite lookup_insert_ne; [exact Hpath | congruence].
        -- eexists. rewrite Hout. simpl. now rewrite <- app_assoc.
      * simpl. repeat split; [auto | exists []; now rewrite app_nil_r].
Qed.

(** The downloads run to their end when every request gets a response. *)
Lemma download_papers_completes (papers : list paper) (w : world) :
  (forall p, p ∈ papers -> exists r, requests_get E (PDF_Link p) = Ok r) ->
  (download_papers E papers download_dir w).2 = Ok tt.
Proof.
  revert w; induction papers as [|p papers IH]; intros w Hget; simpl.
  - reflexivity.
  - assert (Hrest : forall q, q ∈ papers -> exists r, requests_get E (PDF_Link q) = Ok r)
      by (intros q Hq; apply Hget; now apply list_elem_of_further).
    destruct (files w !! pdf_path download_dir p); [now apply IH |].
    destruct (Hget p (list_elem_of_here _ _)) as [r ->]. now apply IH.
Qed.

End DownloadFacts.

(** C10: when the file of a dict is not there, [download_papers] stores
    the body of the response under the file's path and prints the
    [Downloaded:] line, for a response of any status; the file is still
    there with that body, and the line still printed, after the dicts that
    follow. *)
Theorem response_body_saved_whatever_status (E : env) (download_dir : string)
    (p : paper) (rest : list paper) (w : world) (r : response) :
  files w !! pdf_path download_dir p = None ->
  requests_get E (PDF_Link p) = Ok r ->
  files (download_papers E [p] download_dir w).1 !! pdf_path download_dir p
  = Some (content r)
  /\ stdout (download_papers E [p] download_dir w).1
     = stdout w ++ ["Downloaded: " +:+ YearMonth p +:+ " " +:+ sanitized_title p]
  /\ files (download_papers E (p :: rest) download_dir w).1 !! pdf_path download_dir p
     = Some (content r)
  /\ ("Downloaded: " +:+ YearMonth p +:+ " " +:+ sanitized_title p)
     ∈ stdout (download_papers E (p :: rest) download_dir w).1.
Proof.
  intros Hfile Hget. simpl. rewrite Hfile, Hget. simpl.
  split; [apply lookup_insert_eq |]. split; [reflexivity |].
  match goal with |- context [download_papers E rest download_dir ?w0] =>
    destruct (download_papers_frame E download_dir rest w0)
      as (_ & Hfiles & lines & Hout) end.
  split.
  - apply Hfiles. simpl. apply lookup_insert_eq.
  - rewrite Hout. simpl. rewrite !elem_of_app, list_elem_of_singleton. auto.
Qed.

Lemma response_body_saved_whatever_status_witness :
  files Sample.world_x !! pdf_path "Papers/20240701" Sample.record_x = None
  /\ requests_get (Sample.E []) (PDF_Link Sample.record_x) = Ok Sample.not_found
  /\ files (download_papers (Sample.E []) [Sample.record_x] "Papers/20240701"
              Sample.world_x).1 !! pdf_path "Papers/20240701" Sample.record_x
     = Some (content Sample.not_found)
  /\ stdout (download_papers (Sample.E []) [Sample.record_x] "Papers/20240701"
               Sample.world_x).1
     = stdout Sample.world_x ++ ["Downloaded: " +:+ YearMonth Sample.record_x +:+ " "
                                 +:+ sanitized_title Sample.record_x]
  /\ files (download_papers (Sample.E []) [Sample.record_x; Sample.record_y]
              "Papers/20240701" Sample.world_x).1
       !! pdf_path "Papers/20240701" Sample.record_x
     = Some (content Sample.not_found)
  /\ ("Downloaded: " +:+ YearMonth Sample.record_x +:+ " "
      +:+ sanitized_title Sample.record_x)
     ∈ stdout (download_papers (Sample.E []) [Sample.record_x; Sample.record_y]
                 "Papers/20240701" Sample.world_x).1.
Proof.
  split; [reflexivity |]. split; [reflexivity |].
  apply (response_body_saved_whatever_status (Sample.E []) "Papers/20240701"
           Sample.record_x [Sample.record_y] Sample.world_x Sample.not_found);
    reflexivity.
Defined.

(** ** One run *)

Section RunFacts.
Variables (E : env) (queries : list string)
          (start_year_month end_year_month : string) (num_papers : Z).

(** [main] in terms of its two stages. *)
Lemma main_unfold (w : world) :
  let banner :=
    print (repeat_string "-" 50)
      (print ("[" +:+ today E +:+ "] Crawling papers from arXiv from "
              +:+ start_year_month +:+ " to " +:+ end_year_month)
         (print (repeat_string "-" 50) w)) in
  main E queries start_year_month end_year_month num_papers w
  = match fetch_arxiv_papers E queries start_year_month end_year_month
            num_papers (map row_Title (csv w)) with
    | Raise x => (banner, Raise x)
    | Ok papers =>
        match download_papers E papers (path_join BASE_DIR (today E)) banner with
        | (w', Raise x) => (w', Raise x)
        | (w', Ok _) =>
            (print (repeat_string "-" 25 +:+ " Done " +:+ repeat_string "-" 25)
               (save_all_paper_info (map (paper_info (today E)) papers) w'), Ok tt)
        end
    end.
Proof. reflexivity. Qed.

(** A run that does not reach its end leaves the ledger as it was. *)
Lemma aborted_run_keeps_ledger (w : world) (x : exn) :
  (main E queries start_year_month end_year_month num_papers w).2 = Raise x ->
  csv (main E queries start_year_month end_year_month num_papers w).1 = csv w.
Proof.
  rewrite main_unfold. cbv zeta.
  destruct (fetch_arxiv_papers _ _ _ _ _ _) as [papers|y]; [| reflexivity].
  match goal with |- context [download_papers E papers ?d ?w0] =>
    pose proof (download_papers_frame E d papers w0) as (Hcsv & _);
    destruct (download_papers E papers d w0) as [w' [[]|y]] end;
    [discriminate | intros _; exact Hcsv].
Qed.


Lemma fetch_raise_aborts_run (w : world) (x : exn) :
  fetch_arxiv_papers E queries start_year_month end_year_month num_papers
    (map row_Title (csv w)) = Raise x ->
  (main E queries start_year_month end_year_month num_papers w).2 = Raise x.
Proof. intros H. rewrite main_unfold. cbv zeta. now rewrite H. Qed.

End RunFacts.



(** ** Titles of the ledger *)

(** C1 fails on the code: from an empty ledger, a page that lists two
    entries with the title [Paper Y] leaves two rows with that title. *)
Theorem repeated_page_title_reaches_ledger :
  NoDup (map row_Title (csv Sample.empty_world))
  /\ map row_Title
       (csv (main (Sample.E [Sample.paper_y; Sample.paper_y_again])
               ["fairness"] "202301" "202312" 5 Sample.empty_world).1)
     = ["Paper Y"; "Paper Y"]
  /\ ~ NoDup (map row_Title
                (csv (main (Sample.E [Sample.paper_y; Sample.paper_y_again])
                        ["fairness"] "202301" "202312" 5 Sample.empty_world).1)).
Proof.
  split; [constructor |].
  assert (Htitles :
            map row_Title
              (csv (main (Sample.E [Sample.paper_y; Sample.paper_y_again])
                      ["fairness"] "202301" "202312" 5 Sample.empty_world).1)
            = ["Paper Y"; "Paper Y"]) by reflexivity.
  split; [exact Htitles |].
  rewrite Htitles. intros Hnodup.
  apply NoDup_cons in Hnodup as [Hnotin _]. apply Hnotin, list_elem_of_here.
Qed.

(* ================================================================= *)
(** * Further properties of the code *)

(** ** The parsing loop as a whole *)

Lemma fetch_loop_first_accepted (E : env) (num_papers : Z)
    (downloaded_titles : list string) (es : list entry) (acc : list paper) :
  Forall (fun e => forall x, loop_body E downloaded_titles e <> Raise x) es ->
  fetch_loop E num_papers downloaded_titles es acc
  = Ok (acc ++ take (Z.to_nat num_papers - length acc)
                 (omap (accepted E downloaded_titles) es)).
Proof.
  intros Hok. revert acc.
  induction Hok as [|e es He Hok IH]; intros acc; simpl.
  - now rewrite take_nil, app_nil_r.
  - destruct (Z.geb_spec (Z.of_nat (length acc)) num_papers) as [Hge | Hlt].
    + replace (Z.to_nat num_papers - length acc)%nat with 0%nat by lia.
      now rewrite app_nil_r.
    + unfold accepted at 1.
      destruct (loop_body E downloaded_titles e) as [[p|]|x] eqn:Hbody.
      * rewrite IH, length_app. simpl.
        replace (Z.to_nat num_papers - length acc)%nat
          with (S (Z.to_nat num_papers - (length acc + 1)))%nat by lia.
        simpl. now rewrite <- app_assoc.
      * apply IH.
      * now destruct (He x).
Qed.

(** X2: when no entry of the page makes the loop body raise, the parser
    returns the dicts of the first [num_papers] entries it accepts, in the
    order of the page (none for a count of zero or below). *)
Theorem parser_returns_first_accepted (E : env) (queries : list string)
    (start_year_month end_year_month : string) (num_papers : Z)
    (downloaded_titles : list string) :
  Forall (fun e => forall x, loop_body E downloaded_titles e <> Raise x)
         (page_entries E (search_url queries)) ->
  fetch_arxiv_papers E queries start_year_month end_year_month num_papers
    downloaded_titles
  = Ok (take (Z.to_nat num_papers)
          (omap (accepted E downloaded_titles) (page_entries E (search_url queries)))).
Proof.
  intros Hok. unfold fetch_arxiv_papers.
  rewrite fetch_loop_first_accepted by exact Hok.
  simpl. now rewrite Nat.sub_0_r.
Qed.

Lemma parser_returns_first_accepted_witness :
  fetch_arxiv_papers
    (Sample.E [Sample.paper_x; Sample.undated; Sample.paper_y; Sample.paper_y_again])
    ["fairness"] "202301" "202312" 1 ["Paper X"]
  = Ok [Sample.record_y].
Proof.
  rewrite (parser_returns_first_accepted
             (Sample.E [Sample.paper_x; Sample.undated; Sample.paper_y;
                        Sample.paper_y_again])
             ["fairness"] "202301" "202312" 1 ["Paper X"]).
  - reflexivity.
  - repeat constructor; intros x; vm_compute; discriminate.
Defined.

Lemma fetch_loop_ignores_rest (E : env) (num_papers : Z)
    (downloaded_titles : list string) (es1 es2 : list entry)
    (acc out : list paper) :
  fetch_loop E num_papers downloaded_titles es1 acc = Ok out ->
  num_papers <= Z.of_nat (length out) ->
  fetch_loop E num_papers downloaded_titles (es1 ++ es2) acc = Ok out.
Proof.
  revert acc; induction es1 as [|e es1 IH]; intros acc; simpl.
  - intros [= <-] Hfull. now apply fetch_loop_full.
  - destruct (Z.of_nat (length acc) >=? num_papers); [auto |].
    destruct (loop_body E downloaded_titles e) as [[p|]|x]; [| | discriminate];
      apply IH.
Qed.

(** X3: once the count is reached the rest of the page is not looked at:
    when the parser fills the count on a page, it returns the same dicts on
    any longer page that starts with it, whatever the added entries are,
    also entries on which the loop body would raise. *)
Theorem entries_after_the_count_are_ignored (E : env) (num_papers : Z)
    (downloaded_titles : list string) (es1 es2 : list entry) (out : list paper) :
  fetch_loop E num_papers downloaded_titles es1 [] = Ok out ->
  num_papers <= Z.of_nat (length out) ->
  fetch_loop E num_papers downloaded_titles (es1 ++ es2) [] = Ok out.
Proof. apply fetch_loop_ignores_rest. Qed.

Lemma entries_after_the_count_are_ignored_witness :
  fetch_loop (Sample.E []) 1 [] [Sample.paper_x] [] = Ok [Sample.record_x]
  /\ 1 <= Z.of_nat (length [Sample.record_x])
  /\ loop_body (Sample.E []) [] Sample.bare_paper_x = Raise AttributeError
  /\ fetch_loop (Sample.E []) 1 [] ([Sample.paper_x] ++ [Sample.bare_paper_x]) []
     = Ok [Sample.record_x].
Proof.
  split; [reflexivity |]. split; [simpl; lia |]. split; [reflexivity |].
  apply (entries_after_the_count_are_ignored (Sample.E []) 1 []
           [Sample.paper_x] [Sample.bare_paper_x] [Sample.record_x]);
    [reflexivity | simpl; lia].
Defined.

(** X4: an entry that is reached before the count is full and lacks a
    paragraph the loop reads makes the whole parse raise [AttributeError]:
    an entry with no title paragraph; an entry with a new title and no
    [is-size-7] paragraph; an entry with a new title and a date that
    converts but no authors paragraph, whether or not it has a PDF link.
    No dict is returned, not even those collected before. *)
Theorem missing_paragraph_aborts_parse (E : env) (num_papers : Z)
    (downloaded_titles : list string) (e : entry) (rest : list entry)
    (papers : list paper) :
  Z.of_nat (length papers) < num_papers ->
  p_title e = None
  \/ (exists t, p_title e = Some t /\ (PyStr.strip t ∉ downloaded_titles)
                /\ p_is_size_7 e = None)
  \/ (exists t info date_str year_month,
        p_title e = Some t /\ (PyStr.strip t ∉ downloaded_titles)
        /\ p_is_size_7 e = Some info
        /\ Re.search (PyStr.strip info) = Some date_str
        /\ year_month_of (pads_year E) date_str = Ok year_month
        /\ p_authors e = None) ->
  fetch_loop E num_papers downloaded_titles (e :: rest) papers = Raise AttributeError.
Proof.
  intros Hlt Hcase. apply fetch_loop_raise; [exact Hlt |].
  unfold loop_body.
  destruct Hcase as [-> | [(t & -> & Hnew & ->) | (t & info & d & ym & -> & Hnew & -> & Hs & Hym & ->)]].
  - reflexivity.
  - now rewrite bool_decide_eq_false_2 by assumption.
  - rewrite bool_decide_eq_false_2 by assumption. now rewrite Hs, Hym.
Qed.

Lemma missing_paragraph_aborts_parse_witness :
  fetch_loop (Sample.E []) 5 [] [Sample.bare_paper_x; Sample.paper_y] [Sample.record_x]
  = Raise AttributeError.
Proof.
  apply (missing_paragraph_aborts_parse (Sample.E []) 5 [] Sample.bare_paper_x
           [Sample.paper_y] [Sample.record_x]).
  - simpl. lia.
  - right. left. exists "Paper X
". split; [reflexivity |]. split; [| reflexivity].
    apply (bool_decide_eq_false_1 (_ ∈ _)). reflexivity.
Defined.

(** ** Runs that do not reach their end *)

Lemma print_lines (w : world) (l1 l2 l3 : string) :
  print l3 (print l2 (print l1 w))
  = {| csv := csv w; files := files w; stdout := stdout w ++ [l1; l2; l3] |}.
Proof. unfold print. simpl. now rewrite <- !app_assoc. Qed.

Lemma main_keeps_files (E : env) (queries : list string)
    (start_year_month end_year_month : string) (num_papers : Z) (w : world)
    (path : string) (data : list Byte.byte) :
  files w !! path = Some data ->
  files (main E queries start_year_month end_year_month num_papers w).1 !! path
  = Some data.
Proof.
  intros Hfile. rewrite main_unfold. cbv zeta.
  destruct (fetch_arxiv_papers _ _ _ _ _ _) as [papers|y]; [| exact Hfile].
  match goal with |- context [download_papers E papers ?d ?w0] =>
    pose proof (download_papers_frame E d papers w0) as (_ & Hframe & _);
    specialize (Hframe path data Hfile);
    destruct (download_papers E papers d w0) as [w' [[]|y]] end;
    exact Hframe.
Qed.

(** X5: when the parser raises, the run ends with that exception before
    any download: the ledger and the files are exactly as they were, and
    only the three banner lines have been printed. *)
Theorem parser_error_stops_run (E : env) (queries : list string)
    (start_year_month end_year_month : string) (num_papers : Z) (w : world)
    (x : exn) :
  fetch_arxiv_papers E queries start_year_month end_year_month num_papers
    (map row_Title (csv w)) = Raise x ->
  main E queries start_year_month end_year_month num_papers w
  = ({| csv := csv w; files := files w;
        stdout := stdout w ++ banner E start_year_month end_year_month |},
     Raise x).
Proof.
  intros Hfetch. rewrite main_unfold. cbv zeta. rewrite Hfetch.
  now rewrite print_lines.
Qed.

Lemma parser_error_stops_run_witness :
  main (Sample.E [Sample.year_zero]) ["fairness"] "202301" "202312" 5 Sample.world_x
  = ({| csv := csv Sample.world_x; files := files Sample.world_x;
        stdout := stdout Sample.world_x
                  ++ banner (Sample.E [Sample.year_zero]) "202301" "202312" |},
     Raise ValueError).
Proof.
  apply (parser_error_stops_run (Sample.E [Sample.year_zero]) ["fairness"]
           "202301" "202312" 5 Sample.world_x ValueError).
  reflexivity.
Defined.

(** X6: a run that ends with an exception, raised by the parser or by a
    request, leaves the ledger as it was, and every file that was on disk
    is still there with its content. *)
Theorem exception_keeps_ledger_and_files (E : env) (queries : list string)
    (start_year_month end_year_month : string) (num_papers : Z) (w : world)
    (x : exn) :
  (main E queries start_year_month end_year_month num_papers w).2 = Raise x ->
  csv (main E queries start_year_month end_year_month num_papers w).1 = csv w
  /\ forall path data,
       files w !! path = Some data ->
       files (main E queries start_year_month end_year_month num_papers w).1 !! path
       = Some data.
Proof.
  intros Hraise. split.
  - now apply aborted_run_keeps_ledger with x.
  - intros path data. apply main_keeps_files.
Qed.

Lemma exception_keeps_ledger_and_files_witness :
  (main (Sample.E [Sample.year_zero]) ["fairness"] "202301" "202312" 5
     Sample.world_x).2 = Raise ValueError
  /\ csv (main (Sample.E [Sample.year_zero]) ["fairness"] "202301" "202312" 5
            Sample.world_x).1 = csv Sample.world_x.
Proof.
  split; [reflexivity |].
  apply (exception_keeps_ledger_and_files (Sample.E [Sample.year_zero]) ["fairness"]
           "202301" "202312" 5 Sample.world_x ValueError).
  reflexivity.
Defined.

(** ** The download loop as a whole *)

Lemma download_papers_app (E : env) (download_dir : string)
    (ps1 ps2 : list paper) (w : world) :
  download_papers E (ps1 ++ ps2) download_dir w
  = match download_papers E ps1 download_dir w with
    | (w1, Ok _) => download_papers E ps2 download_dir w1
    | (w1, Raise x) => (w1, Raise x)
    end.
Proof.
  revert w; induction ps1 as [|p ps1 IH]; intros w; simpl; [reflexivity |].
  destruct (files w !! pdf_path download_dir p); [apply IH |].
  destruct (requests_get E (PDF_Link p)); [apply IH | reflexivity].
Qed.

(** X8: when the file of every dict is already on disk, nothing is
    written and the loop ends normally with one [Already downloaded] line
    per dict, in order, whatever [requests.get] would answer or raise. *)
Theorem present_files_are_skipped (E : env) (download_dir : string)
    (papers : list paper) (w : world) :
  Forall (fun p => is_Some (files w !! pdf_path download_dir p)) papers ->
  download_papers E papers download_dir w
  = ({| csv := csv w; files := files w;
        stdout := stdout w
                  ++ map (fun p => "Already downloaded: " +:+ sanitized_title p) papers |},
     Ok tt).
Proof.
  intros Hall. revert w Hall.
  induction papers as [|p papers IH]; intros w Hall; simpl.
  - rewrite app_nil_r. now destruct w.
  - apply Forall_cons in Hall as [[old Hold] Hall]. rewrite Hold.
    rewrite IH by exact Hall. simpl. now rewrite <- app_assoc.
Qed.

Lemma present_files_are_skipped_witness :
  download_papers
    {| today := "20240701"; page_entries := fun _ => [];
       requests_get := fun _ => Raise RequestException; pads_year := false |}
    [Sample.record_y; Sample.record_y_again] "Papers/20240701" Sample.world_x
  = ({| csv := csv Sample.world_x; files := files Sample.world_x;
        stdout := stdout Sample.world_x
                  ++ map (fun p => "Already downloaded: " +:+ sanitized_title p)
                       [Sample.record_y; Sample.record_y_again] |},
     Ok tt).
Proof.
  apply present_files_are_skipped.
  repeat constructor; now eexists.
Defined.

(** X9: two dicts with the same file name share one file: when the file
    is not there and the first request is answered, the first body is
    saved, and the second dict is reported as already downloaded without
    its body being stored, whatever its link gives. *)
Theorem same_file_name_is_saved_once (E : env) (download_dir : string)
    (p q : paper) (w : world) (r : response) :
  pdf_name p = pdf_name q ->
  files w !! pdf_path download_dir p = None ->
  requests_get E (PDF_Link p) = Ok r ->
  download_papers E [p; q] download_dir w
  = ({| csv := csv w;
        files := <[pdf_path download_dir p := content r]> (files w);
        stdout := stdout w
                  ++ ["Downloaded: " +:+ YearMonth p +:+ " " +:+ sanitized_title p;
                      "Already downloaded: " +:+ sanitized_title q] |},
     Ok tt).
Proof.
  intros Hname Hfile Hget. simpl. rewrite Hfile, Hget. simpl.
  assert (Hpath : pdf_path download_dir q = pdf_path download_dir p)
    by (unfold pdf_path; now rewrite Hname).
  rewrite Hpath, lookup_insert_eq.
  unfold print, write_file. simpl. now rewrite <- app_assoc.
Qed.

Lemma same_file_name_is_saved_once_witness :
  Title (Sample.record "A: B/C" "https://arxiv.org/pdf/1")
  <> Title (Sample.record "A B-C" "https://arxiv.org/pdf/2")
  /\ download_papers (Sample.E []) 
       [Sample.record "A: B/C" "https://arxiv.org/pdf/1";
        Sample.record "A B-C" "https://arxiv.org/pdf/2"] "Papers/20240701"
       Sample.empty_world
     = ({| csv := [];
           files := <[pdf_path "Papers/20240701"
                        (Sample.record "A: B/C" "https://arxiv.org/pdf/1")
                      := content Sample.not_found]> ∅;
           stdout := [] ++ ["Downloaded: 202406 A B-C"; "Already downloaded: A B-C"] |},
        Ok tt).
Proof.
  split; [discriminate |].
  apply (same_file_name_is_saved_once (Sample.E []) "Papers/20240701"
           (Sample.record "A: B/C" "https://arxiv.org/pdf/1")
           (Sample.record "A B-C" "https://arxiv.org/pdf/2")
           Sample.empty_world Sample.not_found); reflexivity.
Defined.

(** X10: a request that raises ends the loop there with that exception:
    what the dicts before it wrote and printed stays, and the dicts after
    it are not looked at. *)
Theorem failed_request_stops_downloads (E : env) (download_dir : string)
    (ps1 ps2 : list paper) (p : paper) (w w1 : world) (x : exn) :
  download_papers E ps1 download_dir w = (w1, Ok tt) ->
  files w1 !! pdf_path download_dir p = None ->
  requests_get E (PDF_Link p) = Raise x ->
  download_papers E (ps1 ++ p :: ps2) download_dir w = (w1, Raise x).
Proof.
  intros Hfirst Hfile Hget. rewrite download_papers_app, Hfirst.
  simpl. now rewrite Hfile, Hget.
Qed.

Lemma failed_request_stops_downloads_witness :
  download_papers
    {| today := "20240701"; page_entries := fun _ => [];
       requests_get := fun _ => Raise RequestException; pads_year := false |}
    ([Sample.record_y] ++ Sample.record_x :: [Sample.record_y_again])
    "Papers/20240701" Sample.world_x
  = (print "Already downloaded: Paper Y" Sample.world_x, Raise RequestException).
Proof.
  apply failed_request_stops_downloads; reflexivity.
Defined.

(** X11: the download loop leaves the ledger alone, never changes or
    removes a file that is on disk, and every file it adds sits at the
    path of a dict of the list and holds the body of the response to that
    dict's link. *)
Theorem downloads_only_add_response_bodies (E : env) (download_dir : string)
    (papers : list paper) (w : world) :
  csv (download_papers E papers download_dir w).1 = csv w
  /\ (forall path data,
        files w !! path = Some data ->
        files (download_papers E papers download_dir w).1 !! path = Some data)
  /\ (forall path data,
        files (download_papers E papers download_dir w).1 !! path = Some data ->
        files w !! path = Some data
        \/ exists p r, p ∈ papers /\ path = pdf_path download_dir p
                       /\ requests_get E (PDF_Link p) = Ok r /\ data = content r).
Proof.
  split; [apply download_papers_frame |]. split; [apply download_papers_frame |].
  revert w; induction papers as [|p papers IH]; intros w path data; simpl.
  - auto.
  - destruct (files w !! pdf_path download_dir p) as [old|] eqn:Hfile.
    + intros H. destruct (IH _ _ _ H) as [Hold | (q & r & Hq & -> & Hget & ->)].
      * now left.
      * right. exists q, r. repeat split; [now apply list_elem_of_further | exact Hget].
    + destruct (requests_get E (PDF_Link p)) as [r|x] eqn:Hget; [| now left].
      intros H. destruct (IH _ _ _ H) as [Hold | (q & r' & Hq & -> & Hget' & ->)].
      * simpl in Hold. destruct (decide (pdf_path download_dir p = path)) as [<- | Hne].
        -- rewrite lookup_insert_eq in Hold. injection Hold as <-.
           right. exists p, r. repeat split; [apply list_elem_of_here | exact Hget].
        -- rewrite lookup_insert_ne in Hold by exact Hne. now left.
      * right. exists q, r'. repeat split; [now apply list_elem_of_further | exact Hget'].
Qed.

(** ** The fields of a returned dict *)

Section FieldFacts.
Import PyStr DateTime.

Lemma all_chars_impl (f g : ascii -> bool) (s : string) :
  (forall c, f c = true -> g c = true) ->
  all_chars f s = true -> all_chars g s = true.
Proof.
  intros Hfg. induction s as [|c s IH]; simpl; [reflexivity |].
  intros H. apply andb_prop in H as [Hc Hs]. now rewrite (Hfg c Hc), IH.
Qed.

Lemma lstrip_all_chars (f : ascii -> bool) (s : string) :
  all_chars f s = true -> all_chars f (lstrip s) = true.
Proof.
  induction s as [|c s IH]; simpl; [reflexivity |].
  intros H. destruct (is_space c); [| exact H].
  apply andb_prop in H as [_ Hs]. now apply IH.
Qed.

Lemma rstrip_all_chars (f : ascii -> bool) (s : string) :
  all_chars f s = true -> all_chars f (rstrip s) = true.
Proof.
  induction s as [|c s IH]; simpl; [reflexivity |].
  intros H. apply andb_prop in H as [Hc Hs]. specialize (IH Hs).
  destruct (rstrip s) as [|a r].
  - destruct (is_space c); simpl; [reflexivity | now rewrite Hc].
  - change (all_chars f (String c (String a r)))
      with (f c && all_chars f (String a r)). now rewrite Hc, IH.
Qed.

Lemma strip_all_chars (f : ascii -> bool) (s : string) :
  all_chars f s = true -> all_chars f (strip s) = true.
Proof. intros H. unfold strip. now apply rstrip_all_chars, lstrip_all_chars. Qed.

Lemma split_first_no_sep (sep : ascii) (s : string) :
  all_chars (fun c => negb (Ascii.eqb c sep)) (split_first sep s) = true.
Proof.
  induction s as [|c s IH]; simpl; [reflexivity |].
  destruct (Ascii.eqb c sep) eqn:Hc; simpl; [reflexivity |].
  now rewrite Hc, IH.
Qed.

Lemma find_pdf_link_found (hrefs : list (option string)) (h : string) :
  find_pdf_link hrefs = Some h ->
  Some h ∈ hrefs /\ h <> "" /\ contains "pdf" h = true.
Proof.
  induction hrefs as [|x hrefs IH]; simpl; [discriminate |].
  destruct (href_has_pdf x) eqn:Hx.
  - intros ->. split; [apply list_elem_of_here |].
    unfold href_has_pdf in Hx. apply andb_prop in Hx as [Hne Hpdf].
    split; [| exact Hpdf].
    intros ->. discriminate Hne.
  - intros H. destruct (IH H) as (Hin & Hrest).
    split; [now apply list_elem_of_further | exact Hrest].
Qed.

Lemma digit_char_is_digit (n : Z) : 0 <= n <= 9 -> is_digit (digit_char n) = true.
Proof.
  intros Hn. rewrite <- (Z2Nat.id n) by lia.
  destruct (Z.to_nat n) as [|[|[|[|[|[|[|[|[|[|k]]]]]]]]]] eqn:Hk;
    try reflexivity.
  lia.
Qed.

Lemma dec4_digits (y : Z) : 0 <= y <= 9999 -> all_chars is_digit (dec4 y) = true.
Proof.
  intros Hy. unfold dec4. simpl.
  rewrite !digit_char_is_digit; [reflexivity | ..];
    Z.div_mod_to_equations; lia.
Qed.

Lemma dec2_digits (m : Z) : 0 <= m <= 99 -> all_chars is_digit (dec2 m) = true.
Proof.
  intros Hm. unfold dec2. simpl.
  rewrite !digit_char_is_digit; [reflexivity | ..];
    Z.div_mod_to_equations; lia.
Qed.

Lemma drop_zeros_shape (f : ascii -> bool) (s : string) :
  all_chars f s = true -> s <> "" ->
  all_chars f (drop_zeros s) = true
  /\ (1 <= String.length (drop_zeros s) <= String.length s)%nat.
Proof.
  induction s as [|c s IH]; [congruence |].
  intros Hall _. destruct s as [|c' s].
  - simpl. split; [exact Hall | lia].
  - change (drop_zeros (String c (String c' s)))
      with (if Ascii.eqb c "0" then drop_zeros (String c' s)
            else String c (String c' s)).
    destruct (Ascii.eqb c "0").
    + change (all_chars f (String c (String c' s)))
        with (f c && all_chars f (String c' s)) in Hall.
      apply andb_prop in Hall as [_ Hall].
      destruct (IH Hall) as [Hd Hlen]; [discriminate |].
      split; [exact Hd |].
      change (String.length (String c (String c' s)))
        with (S (String.length (String c' s))). lia.
    + split; [exact Hall | simpl; lia].
Qed.

Lemma length_append (a b : string) :
  String.length (a +:+ b) = (String.length a + String.length b)%nat.
Proof. induction a as [|c a IH]; simpl; [reflexivity | now rewrite IH]. Qed.

Lemma strptime_ranges (s : string) (d : datetime) :
  strptime_BY s = Ok d -> 1 <= year d <= 9999 /\ 1 <= month d <= 12.
Proof.
  unfold strptime_BY.
  destruct (match_month month_names 1 s) as [[m r]|] eqn:Hmatch; [| discriminate].
  destruct (match_month_some _ _ _ _ _ Hmatch) as (i & n & Hi & -> & _).
  apply lookup_lt_Some in Hi. change (length month_names) with 12%nat in Hi.
  destruct r as [|sp rest]; [discriminate |].
  destruct (is_space sp); [| discriminate].
  destruct (lstrip rest) as [|d1 [|d2 [|d3 [|d4 [|? ?]]]]]; try discriminate.
  destruct (is_digit d1) eqn:H1, (is_digit d2) eqn:H2,
           (is_digit d3) eqn:H3, (is_digit d4) eqn:H4; try discriminate.
  simpl andb. cbv iota zeta.
  pose proof (digit_val_range d1 H1). pose proof (digit_val_range d2 H2).
  pose proof (digit_val_range d3 H3). pose proof (digit_val_range d4 H4).
  destruct (Z.ltb_spec (year_val (String d1 (String d2 (String d3 (String d4 ""))))) MINYEAR)
    as [Hlt | Hge]; [discriminate |].
  intros [= <-]. unfold year_val, MINYEAR in *. simpl. lia.
Qed.

End FieldFacts.

Lemma year_month_is_digits_aux (pads : bool) (date_str year_month : string) :
  year_month_of pads date_str = Ok year_month ->
  PyStr.all_chars PyStr.is_digit year_month = true
  /\ ((3 <= String.length year_month <= 6)%nat
      /\ (pads = true -> String.length year_month = 6%nat)).
Proof.
  unfold year_month_of.
  destruct (DateTime.strptime_BY date_str) as [d|x] eqn:Hd; [| discriminate].
  intros [= <-]. destruct (strptime_ranges _ _ Hd) as [Hy Hm].
  assert (H4 : PyStr.all_chars PyStr.is_digit (DateTime.dec4 (DateTime.year d)) = true)
    by (apply dec4_digits; lia).
  assert (H2 : PyStr.all_chars PyStr.is_digit (DateTime.dec2 (DateTime.month d)) = true)
    by (apply dec2_digits; lia).
  destruct (drop_zeros_shape PyStr.is_digit (DateTime.dec4 (DateTime.year d)) H4)
    as [Hz Hlen]; [discriminate |].
  change (String.length (DateTime.dec4 (DateTime.year d))) with 4%nat in Hlen.
  unfold DateTime.strftime_Ym.
  destruct pads; rewrite all_chars_app, length_append.
  - rewrite H4, H2. repeat split; simpl; lia.
  - rewrite Hz, H2.
    change (String.length (DateTime.dec2 (DateTime.month d))) with 2%nat.
    repeat split; (lia || discriminate).
Qed.

Lemma pdf_file_name_aux (p : paper) :
  PyStr.all_chars (fun x => negb (Ascii.eqb ":" x)) (sanitized_title p) = true
  /\ PyStr.all_chars (fun x => negb (Ascii.eqb "/" x))
       ("_" +:+ sanitized_title p +:+ ".pdf") = true.
Proof.
  assert (Hsan : sanitized_title p = subst_char "/" "-" (subst_char ":" "" (Title p))).
  { unfold sanitized_title. now rewrite !replace_one_char. }
  rewrite Hsan. split.
  - apply subst_char_keeps_clean; [reflexivity |]. now apply subst_char_clean.
  - rewrite !all_chars_app. now rewrite subst_char_clean.
Qed.

(** X12: whatever text is converted, a [YearMonth] that comes out is made
    of digits only, three to six of them, and exactly six when the
    platform pads the year. *)
Theorem year_month_is_digits (pads : bool) (date_str year_month : string) :
  year_month_of pads date_str = Ok year_month ->
  PyStr.all_chars PyStr.is_digit year_month = true
  /\ (3 <= String.length year_month <= 6)%nat
  /\ (pads = true -> String.length year_month = 6%nat).
Proof. apply year_month_is_digits_aux. Qed.

Lemma year_month_is_digits_witness :
  year_month_of false "June 0024" = Ok "2406"
  /\ PyStr.all_chars PyStr.is_digit "2406" = true
  /\ (3 <= String.length "2406" <= 6)%nat
  /\ (false = true -> String.length "2406" = 6%nat).
Proof.
  split; [reflexivity |].
  apply (year_month_is_digits false "June 0024" "2406"). reflexivity.
Defined.

(** X13: every year but 0000 converts: for a word that is, case apart,
    the month number [i + 1] and four digits [y] other than 0000, the
    result is [y] with the month's two digits where the platform pads the
    year, and [y] without its leading zeros with the month's two digits
    where it does not. *)
Theorem every_year_but_0000_converts (pads : bool) (w y : string) (i : nat) :
  year_text y -> y <> "0000" ->
  DateTime.month_names !! i = Some (PyStr.lower w) ->
  year_month_of pads (w +:+ " " +:+ y)
  = Ok ((if pads then y else DateTime.drop_zeros y)
        +:+ DateTime.dec2 (1 + Z.of_nat i)).
Proof.
  intros Hy Hne Hi. unfold year_month_of.
  rewrite (strptime_recognized w y i Hy Hi).
  destruct (Z.ltb_spec (DateTime.year_val y) DateTime.MINYEAR) as [Hlt | Hge].
  - now apply year_val_zero in Hlt.
  - unfold DateTime.strftime_Ym. cbn [DateTime.year DateTime.month].
    now rewrite (dec4_year_val y Hy).
Qed.

Lemma every_year_but_0000_converts_witness :
  year_month_of false ("JUNE" +:+ " " +:+ "0024")
  = Ok ((if false then "0024" else DateTime.drop_zeros "0024")
        +:+ DateTime.dec2 (1 + Z.of_nat 5)).
Proof.
  apply (every_year_but_0000_converts false "JUNE" "0024" 5);
    [now split | discriminate | reflexivity].
Defined.

Lemma all_chars_cons (f : ascii -> bool) (c : ascii) (s : string) :
  PyStr.all_chars f (String c s) = f c && PyStr.all_chars f s.
Proof. reflexivity. Qed.

Lemma startswith_char (a c : ascii) (s : string) :
  PyStr.startswith (String a "") (String c s) = Ascii.eqb a c.
Proof.
  unfold PyStr.startswith.
  change (PyStr.strip_prefix (String a "") (String c s))
    with (if Ascii.eqb a c then Some s else None).
  now destruct (Ascii.eqb a c).
Qed.

Lemma digit_is_no_slash (c : ascii) :
  PyStr.is_digit c = true -> negb (Ascii.eqb "/" c) = true.
Proof. destruct c as [[] [] [] [] [] [] [] []]; vm_compute; congruence. Qed.

Lemma loop_body_fields (E : env) (downloaded_titles : list string)
    (e : entry) (p : paper) :
  loop_body E downloaded_titles e = Ok (Some p) ->
  exists t info date_str authors_text,
    p_title e = Some t /\ p_is_size_7 e = Some info
    /\ p_authors e = Some authors_text
    /\ Re.search (PyStr.strip info) = Some date_str
    /\ year_month_of (pads_year E) date_str = Ok (YearMonth p)
    /\ find_pdf_link (a_hrefs e) = Some (PDF_Link p)
    /\ First_Author p
       = PyStr.strip (PyStr.split_first "," (PyStr.replace "Authors:" "" authors_text))
    /\ Title p = PyStr.strip t
    /\ Journal p = "arXiv" /\ Download_Date p = today E.
Proof.
  unfold loop_body. intros H.
  repeat case_match; simplify_eq. simpl.
  do 4 eexists. repeat split; eassumption.
Qed.

(** X14: in every dict the loop body produces, the journal is [arXiv],
    the download date is the day of the run, the link is the first [href]
    of the entry that is not empty and contains [pdf], the first author
    has no comma and no surrounding whitespace, and the year-month is made
    of digits. *)
Theorem returned_dict_fields (E : env) (downloaded_titles : list string)
    (e : entry) (p : paper) :
  loop_body E downloaded_titles e = Ok (Some p) ->
  Journal p = "arXiv"
  /\ Download_Date p = today E
  /\ find_pdf_link (a_hrefs e) = Some (PDF_Link p)
  /\ (Some (PDF_Link p) ∈ a_hrefs e)
  /\ PDF_Link p <> ""
  /\ PyStr.contains "pdf" (PDF_Link p) = true
  /\ PyStr.all_chars (fun c => negb (Ascii.eqb c ",")) (First_Author p) = true
  /\ PyStr.strip (First_Author p) = First_Author p
  /\ PyStr.all_chars PyStr.is_digit (YearMonth p) = true.
Proof.
  intros H.
  destruct (loop_body_fields _ _ _ _ H)
    as (t & info & d & a & _ & _ & _ & _ & Hym & Hlink & Hauthor & _ & Hj & Hd).
  destruct (find_pdf_link_found _ _ Hlink) as (Hin & Hne & Hpdf).
  destruct (year_month_is_digits_aux _ _ _ Hym) as [Hdig _].
  repeat split; try assumption.
  - rewrite Hauthor. apply strip_all_chars, split_first_no_sep.
  - rewrite Hauthor. apply strip_idem.
Qed.

Lemma returned_dict_fields_witness :
  loop_body (Sample.E []) [] Sample.paper_y = Ok (Some Sample.record_y)
  /\ find_pdf_link (a_hrefs Sample.paper_y) = Some (PDF_Link Sample.record_y)
  /\ PyStr.strip (First_Author Sample.record_y) = First_Author Sample.record_y.
Proof.
  split; [reflexivity |].
  destruct (returned_dict_fields (Sample.E []) [] Sample.paper_y Sample.record_y eq_refl)
    as (_ & _ & Hlink & _ & _ & _ & _ & Hstrip & _).
  split; [exact Hlink | exact Hstrip].
Defined.

(** X15: the file of a dict the loop body produces is always directly
    inside the download directory: its name holds no slash, and for a
    directory name that is not empty and does not end with a slash the
    path is the directory, a slash and the name. *)
Theorem returned_dict_file_stays_in_directory (E : env)
    (downloaded_titles : list string) (e : entry) (p : paper) :
  loop_body E downloaded_titles e = Ok (Some p) ->
  PyStr.all_chars (fun c => negb (Ascii.eqb "/" c)) (pdf_name p) = true
  /\ forall download_dir,
       download_dir <> "" -> PyStr.endswith "/" download_dir = false ->
       pdf_path download_dir p = download_dir +:+ "/" +:+ pdf_name p.
Proof.
  intros H.
  destruct (loop_body_fields _ _ _ _ H)
    as (t & info & d & a & _ & _ & _ & _ & Hym & _).
  destruct (year_month_is_digits_aux _ _ _ Hym) as [Hdig Hlen].
  assert (Hname : PyStr.all_chars (fun c => negb (Ascii.eqb "/" c)) (pdf_name p) = true).
  { unfold pdf_name. rewrite all_chars_app.
    rewrite (all_chars_impl _ _ _ digit_is_no_slash Hdig).
    destruct (pdf_file_name_aux p) as [_ ->]. reflexivity. }
  split; [exact Hname |].
  intros download_dir Hne Hend. unfold pdf_path, path_join.
  assert (Hstart : PyStr.startswith "/" (pdf_name p) = false).
  { destruct (pdf_name p) as [|c s]; [reflexivity |].
    rewrite all_chars_cons in Hname. apply andb_prop in Hname as [Hc _].
    rewrite startswith_char. now destruct (Ascii.eqb "/" c). }
  rewrite Hstart, Hend.
  destruct (String.eqb_spec download_dir ""); [contradiction | reflexivity].
Qed.

Lemma returned_dict_file_stays_in_directory_witness :
  loop_body (Sample.E []) []
    (Sample.listed "../../etc/passwd: x" Sample.announced "https://arxiv.org/pdf/1")
  = Ok (Some (Sample.record "../../etc/passwd: x" "https://arxiv.org/pdf/1"))
  /\ pdf_path "Papers/20240701" (Sample.record "../../etc/passwd: x" "https://arxiv.org/pdf/1")
     = "Papers/20240701" +:+ "/"
       +:+ pdf_name (Sample.record "../../etc/passwd: x" "https://arxiv.org/pdf/1").
Proof.
  split; [reflexivity |].
  destruct (returned_dict_file_stays_in_directory (Sample.E []) []
              (Sample.listed "../../etc/passwd: x" Sample.announced "https://arxiv.org/pdf/1")
              (Sample.record "../../etc/passwd: x" "https://arxiv.org/pdf/1") eq_refl)
    as [_ Hpath].
  apply Hpath; [discriminate | reflexivity].
Defined.

(** ** The announcement pattern *)

(** X16: the search for [originally announced (\w+ \d{4})] succeeds
    exactly on the texts that hold the words [originally announced ], a
    non-empty run of word characters, one space and four digits; what it
    returns is such a word, a space and such a year found in the text. *)
Theorem search_finds_exactly_the_pattern (s : string) :
  (is_Some (Re.search s) <-> has_announcement s)
  /\ forall g, Re.search s = Some g ->
       exists w y, announced_at s w y /\ g = w +:+ " " +:+ y.
Proof.
  split.
  - split; [| apply search_complete].
    intros [g Hg]. destruct (search_sound _ _ Hg) as (w & y & Ha & _).
    now exists w, y.
  - apply search_sound.
Qed.

(** ** The date range *)

Lemma download_papers_same_disk (E : env) (download_dir : string)
    (papers : list paper) (w1 w2 : world) :
  csv w1 = csv w2 -> files w1 = files w2 ->
  csv (download_papers E papers download_dir w1).1
  = csv (download_papers E papers download_dir w2).1
  /\ files (download_papers E papers download_dir w1).1
     = files (download_papers E papers download_dir w2).1
  /\ (download_papers E papers download_dir w1).2
     = (download_papers E papers download_dir w2).2.
Proof.
  revert w1 w2; induction papers as [|p papers IH]; intros w1 w2 Hcsv Hfiles; simpl.
  - auto.
  - rewrite <- Hfiles.
    destruct (files w1 !! pdf_path download_dir p).
    + apply IH; simpl; assumption.
    + destruct (requests_get E (PDF_Link p)); [| simpl; auto].
      apply IH; simpl; [assumption | now rewrite Hfiles].
Qed.

(** X17: the start and end year-month never reach the search or the
    parser: two runs that differ only in them return the same dicts, end
    the same way and leave the same ledger and the same files; only the
    banner line differs. *)
Theorem date_range_is_ignored (E : env) (queries : list string)
    (start1 end1 start2 end2 : string) (num_papers : Z) (w : world) :
  fetch_arxiv_papers E queries start1 end1 num_papers (map row_Title (csv w))
  = fetch_arxiv_papers E queries start2 end2 num_papers (map row_Title (csv w))
  /\ csv (main E queries start1 end1 num_papers w).1
     = csv (main E queries start2 end2 num_papers w).1
  /\ files (main E queries start1 end1 num_papers w).1
     = files (main E queries start2 end2 num_papers w).1
  /\ (main E queries start1 end1 num_papers w).2
     = (main E queries start2 end2 num_papers w).2.
Proof.
  split; [reflexivity |].
  rewrite !main_unfold. cbv zeta.
  change (fetch_arxiv_papers E queries start2 end2 num_papers (map row_Title (csv w)))
    with (fetch_arxiv_papers E queries start1 end1 num_papers (map row_Title (csv w))).
  destruct (fetch_arxiv_papers E queries start1 end1 num_papers (map row_Title (csv w)))
    as [papers|x]; [| auto].
  rewrite !print_lines.
  match goal with
  | |- context [download_papers E papers ?d ?wa] =>
      match goal with
      | |- context [download_papers E papers d ?wb] =>
          lazymatch wa with
          | wb => fail
          | _ => pose proof (download_papers_same_disk E d papers wa wb eq_refl eq_refl)
                   as (Hcsv & Hfiles & Hres);
                 destruct (download_papers E papers d wa) as [wa' ra];
                 destruct (download_papers E papers d wb) as [wb' rb]
          end
      end
  end.
  simpl in Hcsv, Hfiles, Hres. subst rb.
  destruct ra as [[]|x]; simpl; unfold read_downloaded_papers;
    rewrite ?Hcsv, ?Hfiles; auto.
Qed.

(** ** The prompts *)

Section PromptFacts.

Lemma lstrip_by_all_chars (f g : ascii -> bool) (s : string) :
  PyStr.all_chars g s = true -> PyStr.all_chars g (lstrip_by f s) = true.
Proof.
  induction s as [|c s IH]; simpl; [reflexivity |].
  intros H. destruct (f c); [| exact H].
  apply andb_prop in H as [_ Hs]. now apply IH.
Qed.

Lemma rstrip_by_all_chars (f g : ascii -> bool) (s : string) :
  PyStr.all_chars g s = true -> PyStr.all_chars g (rstrip_by f s) = true.
Proof.
  induction s as [|c s IH]; simpl; [reflexivity |].
  intros H. apply andb_prop in H as [Hc Hs]. specialize (IH Hs).
  destruct (rstrip_by f s) as [|a r].
  - destruct (f c); [reflexivity |]. now rewrite all_chars_cons, Hc.
  - now rewrite all_chars_cons, Hc, IH.
Qed.

Lemma strip_by_all_chars (f g : ascii -> bool) (s : string) :
  PyStr.all_chars g s = true -> PyStr.all_chars g (strip_by f s) = true.
Proof. intros H. now apply rstrip_by_all_chars, lstrip_by_all_chars. Qed.

Lemma lstrip_by_head (f : ascii -> bool) (s : string) :
  lstrip_by f s = "" \/ exists c r, lstrip_by f s = String c r /\ f c = false.
Proof.
  induction s as [|c s IH]; simpl; [now left |].
  destruct (f c) eqn:Hc; [exact IH | right; eauto].
Qed.

Lemma rstrip_by_idem (f : ascii -> bool) (s : string) :
  rstrip_by f (rstrip_by f s) = rstrip_by f s.
Proof.
  induction s as [|c s IH]; simpl; [reflexivity |].
  destruct (rstrip_by f s) as [|a r] eqn:Hr.
  - destruct (f c) eqn:Hc; simpl; [reflexivity | now rewrite Hc].
  - change (rstrip_by f (String c (String a r))) with
      (match rstrip_by f (String a r) with
       | "" => if f c then "" else String c ""
       | r' => String c r'
       end).
    now rewrite IH.
Qed.

Lemma strip_by_idem (f : ascii -> bool) (s : string) :
  strip_by f (strip_by f s) = strip_by f s.
Proof.
  unfold strip_by.
  destruct (lstrip_by_head f s) as [-> | (c & r & -> & Hc)]; [reflexivity |].
  assert (Hkeep : exists r', rstrip_by f (String c r) = String c r').
  { simpl. destruct (rstrip_by f r); [rewrite Hc |]; eauto. }
  destruct Hkeep as [r' Hr']. rewrite Hr'.
  change (lstrip_by f (String c r')) with (if f c then lstrip_by f r' else String c r').
  rewrite Hc, <- Hr'. apply rstrip_by_idem.
Qed.

Lemma str_split_pieces (sep : ascii) (s : string) :
  length (str_split sep s) = S (count_char sep s)
  /\ Forall (fun q => PyStr.all_chars (fun c => negb (Ascii.eqb c sep)) q = true)
            (str_split sep s).
Proof.
  induction s as [|c s [IHlen IHall]]; simpl.
  - split; [reflexivity | repeat constructor].
  - destruct (Ascii.eqb c sep) eqn:Hc.
    + split; [simpl; now rewrite IHlen | now constructor].
    + destruct (str_split sep s) as [|x l]; [discriminate |].
      apply Forall_cons in IHall as [Hx Hl].
      split; [exact IHlen |].
      constructor; [| exact Hl]. now rewrite all_chars_cons, Hc, Hx.
Qed.

(** Joining the pieces with the separator gives the text back. *)
Lemma str_split_join (sep : ascii) (s : string) :
  join (String sep "") (str_split sep s) = s.
Proof.
  induction s as [|c s IH]; simpl; [reflexivity |].
  destruct (Ascii.eqb c sep) eqn:Hc.
  - apply Ascii.eqb_eq in Hc as ->.
    destruct (str_split sep s) as [|x l] eqn:Hs; [discriminate IH || (simpl in IH; now subst) |].
    change (join (String sep "") ("" :: x :: l))
      with ("" +:+ String sep "" +:+ join (String sep "") (x :: l)).
    now rewrite IH.
  - destruct (str_split sep s) as [|x l] eqn:Hs.
    + simpl in IH. now subst.
    + destruct l as [|x' l].
      * simpl in IH |- *. now subst.
      * change (join (String sep "") (String c x :: x' :: l))
          with (String c (x +:+ String sep "" +:+ join (String sep "") (x' :: l))).
        change (join (String sep "") (x :: x' :: l))
          with (x +:+ String sep "" +:+ join (String sep "") (x' :: l)) in IH.
        now rewrite IH.
Qed.

End PromptFacts.

(** X18: an empty first answer gives the three default keywords; any
    other answer gives one keyword per comma plus one, in order, none of
    which holds a comma or keeps a double quote at either end; the pieces
    cut at the commas, joined with commas, are the answer again. *)
Theorem parsed_queries (queries_input : string) :
  parse_queries "" = Config.DEFAULT_QUERIES
  /\ (queries_input <> "" ->
      length (parse_queries queries_input) = S (count_char "," queries_input)
      /\ parse_queries queries_input = map clean_query (str_split "," queries_input)
      /\ join "," (str_split "," queries_input) = queries_input
      /\ Forall (fun q =>
                   PyStr.all_chars (fun c => negb (Ascii.eqb c ",")) q = true
                   /\ strip_by (Ascii.eqb double_quote) q = q)
                (parse_queries queries_input)).
Proof.
  split; [reflexivity |]. intros Hne.
  unfold parse_queries.
  destruct (String.eqb_spec queries_input ""); [contradiction |].
  destruct (str_split_pieces "," queries_input) as [Hlen Hall].
  rewrite length_map. repeat split; [exact Hlen | apply str_split_join |].
  apply Forall_map. eapply Forall_impl; [exact Hall |].
  intros q Hq. cbv beta in Hq |- *. unfold clean_query. split.
  - now apply strip_by_all_chars, strip_by_all_chars, strip_all_chars.
  - apply strip_by_idem.
Qed.

Lemma parsed_queries_witness :
  parse_queries " 'fairness' ,machine learning,," = ["fairness"; "machine learning"; ""; ""]
  /\ length (parse_queries " 'fairness' ,machine learning,,")
     = S (count_char "," " 'fairness' ,machine learning,,").
Proof.
  split; [reflexivity |].
  destruct (parsed_queries " 'fairness' ,machine learning,,") as [_ H].
  destruct H as [Hlen _]; [discriminate | exact Hlen].
Defined.

Lemma first_number (int : string -> option Z)
    (rejected : list string) (answer : string) (rest : list string)
    (num_papers : Z) (w : world) :
  Forall (fun a => int (or_default a "5") = None) rejected ->
  int (or_default answer "5") = Some num_papers ->
  ask_num_papers int (rejected ++ answer :: rest) w
  = (Some (num_papers, rest),
     {| csv := csv w; files := files w;
        stdout := stdout w ++ replicate (length rejected) invalid_input |})
  /\ ask_num_papers int rejected w
     = (None,
        {| csv := csv w; files := files w;
           stdout := stdout w ++ replicate (length rejected) invalid_input |}).
Proof.
  intros Hrej Hans. revert w.
  induction Hrej as [|a rejected Ha Hrej IH]; intros w; simpl.
  - rewrite Hans, app_nil_r. now destruct w.
  - rewrite Ha. destruct (IH (print invalid_input w)) as [-> ->].
    unfold print. simpl. now rewrite <- !app_assoc.
Qed.

(** X19: the loop that asks for the number of papers takes the first
    answer that [int] accepts, an empty answer counting as [5]; for every
    answer before it one [Invalid input] line is printed and nothing else
    changes; the answers after it are left unread.  When no answer is
    accepted the input runs out, with one line printed per answer. *)
Theorem first_accepted_number_is_taken (int : string -> option Z)
    (rejected : list string) (answer : string) (rest : list string)
    (num_papers : Z) (w : world) :
  Forall (fun a => int (or_default a "5") = None) rejected ->
  int (or_default answer "5") = Some num_papers ->
  ask_num_papers int (rejected ++ answer :: rest) w
  = (Some (num_papers, rest),
     {| csv := csv w; files := files w;
        stdout := stdout w ++ replicate (length rejected) invalid_input |})
  /\ ask_num_papers int rejected w
     = (None,
        {| csv := csv w; files := files w;
           stdout := stdout w ++ replicate (length rejected) invalid_input |}).
Proof. apply first_number. Qed.

Lemma first_accepted_number_is_taken_witness :
  ask_num_papers digits_only_int (["five"; "-"] ++ "" :: ["7"]) Sample.empty_world
  = (Some (5, ["7"]),
     {| csv := []; files := ∅;
        stdout := [] ++ replicate (length ["five"; "-"]) invalid_input |}).
Proof.
  apply (first_accepted_number_is_taken digits_only_int ["five"; "-"] "" ["7"] 5
           Sample.empty_world); [repeat constructor | reflexivity].
Defined.

(** X20: with at least three answers followed by answers for the count,
    the script runs [main] once, on the keywords parsed from the first
    answer, the second and third answers or their defaults [202301] and
    [202312], and the first count [int] accepts, after one
    [Invalid input] line per rejected count; with fewer than three
    answers, or no accepted count, it ends with [EOFError] and [main] is
    not run. *)
Theorem script_runs_main_on_the_answers (int : string -> option Z) (E : env)
    (queries_input start_input end_input : string)
    (rejected : list string) (answer : string) (rest : list string)
    (num_papers : Z) (w : world) :
  Forall (fun a => int (or_default a "5") = None) rejected ->
  int (or_default answer "5") = Some num_papers ->
  script int E (queries_input :: start_input :: end_input
                :: rejected ++ answer :: rest) w
  = (let (w', r) :=
       main E (parse_queries queries_input)
         (or_default start_input Config.DEFAULT_START_YEAR_MONTH)
         (or_default end_input Config.DEFAULT_END_YEAR_MONTH)
         num_papers
         {| csv := csv w; files := files w;
            stdout := stdout w ++ replicate (length rejected) invalid_input |} in
     Ran w' r)
  /\ script int E (queries_input :: start_input :: end_input :: rejected) w
     = EOFError {| csv := csv w; files := files w;
                   stdout := stdout w ++ replicate (length rejected) invalid_input |}
  /\ script int E [] w = EOFError w
  /\ script int E [queries_input] w = EOFError w
  /\ script int E [queries_input; start_input] w = EOFError w.
Proof.
  intros Hrej Hans.
  destruct (first_number int rejected answer rest num_papers w Hrej Hans) as [Hsome Hnone].
  unfold script. rewrite Hsome, Hnone. repeat split.
Qed.

Lemma script_runs_main_on_the_answers_witness :
  script digits_only_int (Sample.E [Sample.paper_x; Sample.paper_y])
    ("" :: "" :: "" :: ["many"] ++ "1" :: []) Sample.empty_world
  = (let (w', r) :=
       main (Sample.E [Sample.paper_x; Sample.paper_y])
         (parse_queries "")
         (or_default "" Config.DEFAULT_START_YEAR_MONTH)
         (or_default "" Config.DEFAULT_END_YEAR_MONTH) 1
         {| csv := []; files := ∅;
            stdout := [] ++ replicate (length ["many"]) invalid_input |} in
     Ran w' r).
Proof.
  destruct (script_runs_main_on_the_answers digits_only_int
              (Sample.E [Sample.paper_x; Sample.paper_y]) "" "" "" ["many"] "1" [] 1
              Sample.empty_world) as [H _];
    [repeat constructor | reflexivity | exact H].
Defined.

Lemma downloads_only_add_response_bodies_witness :
  files (download_papers (Sample.E []) [Sample.record_x; Sample.record_y]
           "Papers/20240701" Sample.world_x).1
    !! "Papers/20240701/202406_Paper Y.pdf" = Some [Byte.x25].
Proof.
  destruct (downloads_only_add_response_bodies (Sample.E []) "Papers/20240701"
              [Sample.record_x; Sample.record_y] Sample.world_x) as (_ & Hkeep & _).
  apply Hkeep. reflexivity.
Defined.

Lemma search_finds_exactly_the_pattern_witness : has_announcement Sample.announced.
Proof.
  apply (search_finds_exactly_the_pattern Sample.announced).
  vm_compute. eauto.
Defined.

(* ================================================================= *)
(** * The ledger file *)

Section PandasFacts.
Import Pandas.
Variable other_dtype : bool -> list string -> option (string -> string).





Lemma read_csv_columns (rows : list row) :
  Forall (fun c => map c.2 (read_csv other_dtype rows)
                   = map (read_cell other_dtype (map c.1 rows)) (map c.1 rows))
         columns.
Proof.
  unfold columns, read_csv.
  repeat constructor; simpl; now rewrite !map_map.
Qed.

Lemma to_csv_app (df1 df2 : list record) : to_csv (df1 ++ df2) = to_csv df1 ++ to_csv df2.
Proof. apply map_app. Qed.

Lemma to_csv_DataFrame (batch : list row) : to_csv (DataFrame batch) = batch.
Proof.
  unfold to_csv, DataFrame.
  induction batch as [|[d y t j a] batch IH]; simpl; [reflexivity |].
  f_equal. exact IH.
Qed.

(** The file after an append: the old rows as pandas writes them back,
    then the batch as it is. *)
Lemma saved_file (batch file : list row) :
  save_all_paper_info other_dtype batch file
  = to_csv (read_downloaded_papers other_dtype file) ++ batch.
Proof.
  unfold save_all_paper_info. cbv zeta. now rewrite to_csv_app, to_csv_DataFrame.
Qed.



End PandasFacts.

(** A file that is written back as it is read is one on which appending
    a batch is adding its rows of text. *)
Lemma save_adds_rows_of_text
    (other_dtype : bool -> list string -> option (string -> string))
    (batch : list row) (w : world) :
  Pandas.to_csv (Pandas.read_downloaded_papers other_dtype (csv w)) = csv w ->
  Pandas.save_all_paper_info other_dtype batch (csv w)
  = csv (save_all_paper_info batch w).
Proof. intros Hfix. now rewrite saved_file, Hfix. Qed.




(** X21: a title that is a missing-value marker, or any title when every
    title of the file is a whole number, is not found among the titles
    read from the ledger, whatever the file holds: the test of the parser
    against the ledger does not know it. *)
Theorem marker_and_number_titles_are_not_known
    (other_dtype : bool -> list string -> option (string -> string))
    (file : list row) (title : string) :
  Pandas.is_na title = true
  \/ forallb Pandas.is_whole_number (map row_Title file) = true ->
  Pandas.known (Pandas.downloaded_titles other_dtype file) title = false.
Proof.
  intros Hcase. unfold Pandas.known. apply bool_decide_eq_false_2.
  unfold Pandas.downloaded_titles, Pandas.read_downloaded_papers.
  pose proof (read_csv_columns other_dtype file) as Hcols.
  unfold Pandas.columns in Hcols.
  apply Forall_cons in Hcols as [_ Hcols]. apply Forall_cons in Hcols as [_ Hcols].
  apply Forall_cons in Hcols as [Htitle _]. simpl in Htitle. rewrite Htitle.
  intros Hin. apply list_elem_of_In, in_map_iff in Hin as (t & Hread & _).
  unfold Pandas.read_cell in Hread.
  destruct (forallb Pandas.is_whole_number (map row_Title file)); [discriminate |].
  destruct Hcase as [Hna | Hwhole]; [| discriminate].
  destruct (Pandas.is_na t) eqn:Ht; [discriminate |].
  destruct (other_dtype _ _); [discriminate |].
  injection Hread as ->. congruence.
Qed.

Lemma marker_and_number_titles_are_not_known_witness :
  Pandas.known
    (Pandas.downloaded_titles Pandas.text_only
       (Pandas.save_all_paper_info Pandas.text_only [Sample.line "2048"] []))
    "2048" = false
  /\ Pandas.known
       (Pandas.downloaded_titles Pandas.text_only
          (Pandas.save_all_paper_info Pandas.text_only [Sample.line "None"]
             [Sample.line "Paper X"]))
       "None" = false.
Proof.
  split; apply marker_and_number_titles_are_not_known;
    [right | left]; reflexivity.
Defined.
